(** * talk-codebase: the vector-store lifecycle and the query pipeline

    A shallow embedding of [talk_codebase/llm.py] and [talk_codebase/LLM.py].
    Both files define [BaseLLM] with its two subclasses; the embedding keeps
    them apart in the modules [llm] and [LLM].

    Python objects live in a store indexed by locations, so that two names
    for one FAISS object are one location.  Effects (console output, calls to
    the loader, the embedding provider, the index on disk and the language
    model) are threaded through a state monad whose state records them in a
    trace.  [exit(0)] and exceptions end a computation early. *)

From Stdlib Require Import ZArith Ascii.
From stdpp Require Import base option list strings pretty gmap fin_maps.

Local Open Scope string_scope.
Local Open Scope list_scope.

(** ** Data model *)

(** [doc.metadata["source"]]: the only metadata key the code reads. *)
Record Metadata := mkMetadata { source : string }.

(** A langchain [Document]; chunks produced by the splitter are documents
    too. *)
Record Document := mkDocument {
  page_content : string;
  metadata : Metadata }.

#[global] Instance Metadata_eq_dec : EqDecision Metadata.
Proof. solve_decision. Defined.
#[global] Instance Document_eq_dec : EqDecision Document.
Proof. solve_decision. Defined.

(** The configuration dictionary, read with [config.get(key)].  Every key
    the code reads is taken to hold a value that its conversion accepts;
    numeric entries are the values after [int(...)]. *)
Record Config := mkConfig {
  model_type : string;
  model_name : string;
  model_path : string;
  api_key : string;
  chunk_size : Z;
  chunk_overlap : Z;
  max_tokens : Z;
  k : Z }.

(** The embedding providers the two subclasses construct. *)
Inductive Embeddings :=
| HuggingFaceEmbeddings (name : string)
| OpenAIEmbeddings (openai_api_key : string).

(** The language models the two subclasses construct, with the arguments
    that both files pass.  The callback manager ([StreamStdOutJSON] in
    [llm.py], [StreamStdOut] in [LLM.py]) and the sampling temperature that
    only [llm.py] passes to [ChatOpenAI], a float, are not recorded: the
    two files attach models that differ in them. *)
Inductive Model :=
| GPT4All (model : string) (n_ctx : Z)
| ChatOpenAI (name key : string) (max : Z).

Inductive Message :=
| SystemMessage (content : string)
| HumanMessage (content : string).

(** What is handed to the language model: a formatted prompt
    ([LLMChain.run]) or a list of chat messages ([self.llm(messages)]). *)
Inductive Prompt :=
| PromptText (text : string)
| PromptMessages (messages : list Message).

Abbreviation loc := nat (only parsing).

(** An in-memory FAISS object: the provider it embeds with and its
    entries, in insertion order. *)
Record Faiss := mkFaiss {
  embedding_function : option Embeddings;
  docstore : list Document }.

Inductive Class := LocalLLM | OpenAILLM.

(** A [BaseLLM] object; an attribute is [None] until [__init__] assigns
    it. *)
Record Instance := mkInstance {
  cls : Class;
  config : option Config;
  llm_attr : option Model;
  root_dir : option string;
  vector_store : option loc }.

(** Observable effects, in the order they happen. *)
Inductive Event :=
| Stdout (text : string)
| Stderr (text : string)
| HaloStart (text : string)
| HaloSucceed (text : string)
| LoadFiles (root : string)
| Split (size overlap : Z) (docs : list Document)
| Embed (provider : option Embeddings) (texts : list Document)
| LoadLocal (path : string)
| SaveLocal (path : string) (entries : list Document)
| Search (query : string) (top : Z)
| Complete (model : Model) (prompt : Prompt).

Record World := mkWorld {
  stores : gmap loc Faiss;
  objects : gmap loc Instance;
  disk : gmap string (list Document);
  trace : list Event }.

Definition set_stores (f : gmap loc Faiss → gmap loc Faiss) (w : World) : World :=
  mkWorld (f (stores w)) (objects w) (disk w) (trace w).
Definition set_objects (f : gmap loc Instance → gmap loc Instance) (w : World) : World :=
  mkWorld (stores w) (f (objects w)) (disk w) (trace w).
Definition set_disk (f : gmap string (list Document) → gmap string (list Document))
    (w : World) : World :=
  mkWorld (stores w) (objects w) (f (disk w)) (trace w).
Definition set_trace (f : list Event → list Event) (w : World) : World :=
  mkWorld (stores w) (objects w) (disk w) (f (trace w)).

(** ** The effect monad *)

Inductive Outcome (A : Type) :=
| Returned (a : A)
| Exited (code : Z)
| Raised (exn : string).
Arguments Returned {A} a.
Arguments Exited {A} code.
Arguments Raised {A} exn.

Definition M (A : Type) : Type := World → Outcome A * World.

#[global] Instance M_ret : MRet M := λ A a w, (Returned a, w).
#[global] Instance M_bind : MBind M := λ A B f m w,
  match m w with
  | (Returned a, w') => f a w'
  | (Exited c, w') => (Exited c, w')
  | (Raised e, w') => (Raised e, w')
  end.

Definition log (e : Event) : M unit :=
  λ w, (Returned (), set_trace (λ t, t ++ [e]) w).
Definition exit {A} (code : Z) : M A := λ w, (Exited code, w).
Definition raise {A} (exn : string) : M A := λ w, (Raised exn, w).
Definition lift {A} (o : Outcome A) : M A := λ w, (o, w).

(** Reading an attribute that has not been assigned raises. *)
Definition getattr {A} (self : loc) (field : Instance → option A) : M A :=
  λ w, match objects w !! self ≫= field with
       | Some a => (Returned a, w)
       | None => (Raised "AttributeError", w)
       end.

Definition setattr (self : loc) (f : Instance → Instance) : M unit :=
  λ w, match objects w !! self with
       | Some o => (Returned (), set_objects <[self := f o]> w)
       | None => (Raised "AttributeError", w)
       end.

(** ** [os.path.join] (POSIX) *)

Definition starts_with_sep (s : string) : bool :=
  match s with
  | String c _ => bool_decide (c = "/"%char)
  | EmptyString => false
  end.

Fixpoint ends_with_sep (s : string) : bool :=
  match s with
  | EmptyString => false
  | String c EmptyString => bool_decide (c = "/"%char)
  | String _ s' => ends_with_sep s'
  end.

Definition join2 (path b : string) : string :=
  if starts_with_sep b then b
  else if bool_decide (path = "") || ends_with_sep path then path +:+ b
  else path +:+ "/" +:+ b.

Definition path_join (a : string) (p : list string) : string :=
  fold_left join2 p a.

(** [str.join] *)
Fixpoint str_join (sep : string) (l : list string) : string :=
  match l with
  | [] => ""
  | [s] => s
  | s :: l' => s +:+ sep +:+ str_join sep l'
  end.

Definition nl : string := String (Ascii.ascii_of_nat 10) EmptyString.

(** ** External collaborators

    Functions of the Python standard library, of langchain and of the
    repository's [utils] and [consts] modules that the two files call. *)
Class Collaborators := {
  (** [os.path.normpath] and [os.path.abspath] *)
  normpath : string → string;
  abspath : string → string;
  (** [consts.MODEL_TYPES["LOCAL"]], [consts.MODEL_TYPES["OPENAI"]] *)
  MODEL_TYPES_LOCAL : string;
  MODEL_TYPES_OPENAI : string;
  (** [utils.load_files] *)
  load_files : string → list Document;
  (** what [split_documents] of a [RecursiveCharacterTextSplitter] with the
      given [chunk_size] and [chunk_overlap] makes of the documents *)
  split_documents : Z → Z → list Document → list Document;
  (** [utils.calculate_cost], as it is printed: [str(cost)] and
      [f"{cost:.5f}"] *)
  cost_str : list Document → string → string;
  cost_fixed5 : list Document → string → string;
  (** [str(db)] of a FAISS object and [str(paths)] of a list of strings *)
  store_str : loc → string;
  list_str : list string → string;
  (** the index's similarity search over its entries; the library may
      reject the call, as faiss does for a [k] below 1 *)
  similarity : list Document → string → Z → Outcome (list Document);
  (** the prompt [RetrievalQA]'s "stuff" chain builds *)
  stuff_prompt : list Document → string → string }.


(** ** langchain's text splitter and FAISS store

    The methods the two files call, on the objects of [stores] and the
    directories of [disk], with the failures that depend on the arguments
    and on the modelled state.  Failures of the environment (provider,
    file system, network) are not modelled. *)
Section Faiss.
Context `{Collaborators}.

(** A [RecursiveCharacterTextSplitter] object. *)
Record TextSplitter := mkTextSplitter {
  _chunk_size : Z;
  _chunk_overlap : Z }.

(** [RecursiveCharacterTextSplitter(chunk_size=..., chunk_overlap=...)]:
    the constructor refuses an overlap larger than the chunk size. *)
Definition RecursiveCharacterTextSplitter (chunk_size chunk_overlap : Z)
    : M TextSplitter :=
  if bool_decide (chunk_overlap > chunk_size)%Z then raise "ValueError"
  else mret (mkTextSplitter chunk_size chunk_overlap).

(** [text_splitter.split_documents(docs)] *)
Definition splitter_split_documents (text_splitter : TextSplitter)
    (docs : list Document) : M (list Document) :=
  log (Split (_chunk_size text_splitter) (_chunk_overlap text_splitter) docs);;
  mret (split_documents (_chunk_size text_splitter) (_chunk_overlap text_splitter)
          docs).

Definition read_store (db : loc) : M Faiss :=
  λ w, match stores w !! db with
       | Some s => (Returned s, w)
       | None => (Raised "AttributeError", w)
       end.

Definition write_store (db : loc) (s : Faiss) : M unit :=
  λ w, (Returned (), set_stores <[db := s]> w).

(** A new Python object: a location no live object has. *)
Definition alloc_store (s : Faiss) : M loc :=
  λ w, let l := fresh (dom (stores w)) in
       (Returned l, set_stores <[l := s]> w).

(** [FAISS.from_documents(texts, embeddings)]: the provider embeds the
    texts, and the index is sized by the first embedding; with no text
    there is none, and no store is built. *)
Definition from_documents (texts : list Document) (embeddings : Embeddings) : M loc :=
  log (Embed (Some embeddings) texts);;
  if bool_decide (length texts = 0) then raise "IndexError"
  else alloc_store (mkFaiss (Some embeddings) texts).

(** [db.add_documents(texts)] *)
Definition add_documents (db : loc) (texts : list Document) : M unit :=
  s ← read_store db;
  log (Embed (embedding_function s) texts);;
  write_store db (mkFaiss (embedding_function s) (docstore s ++ texts)).

Definition write_disk (index_path : string) (entries : list Document) : M unit :=
  λ w, (Returned (), set_disk <[index_path := entries]> w).

Definition read_disk (index_path : string) : M (option (list Document)) :=
  λ w, (Returned (disk w !! index_path), w).

(** [db.save_local(index_path)] *)
Definition save_local (db : loc) (index_path : string) : M unit :=
  s ← read_store db;
  log (SaveLocal index_path (docstore s));;
  write_disk index_path (docstore s).

(** [FAISS.load_local(folder_path, embeddings)].  Both parameters are
    required: a call that passes no [embeddings] raises [TypeError] before
    anything is read.  With both, the result is a new object holding the
    persisted entries, and the read fails when nothing is persisted at the
    path.  The result is a Python value that a caller may test against
    [None]; the method never returns [None]. *)
Definition load_local (index_path : string) (embeddings : option Embeddings)
    : M (option loc) :=
  match embeddings with
  | None => raise "TypeError"
  | Some embeddings =>
      log (LoadLocal index_path);;
      persisted ← read_disk index_path;
      match persisted with
      | Some entries =>
          db ← alloc_store (mkFaiss (Some embeddings) entries); mret (Some db)
      | None => raise "RuntimeError"
      end
  end.

(** Modelled from the spec: [utils.get_local_vector_store], which is not
    among the sources.  "If a store exists at indexPath, loads and returns
    it (reuse path — no re-embedding cost)"; the callers test its result
    against [None], which is what it gives when the load fails. *)
Definition get_local_vector_store (embeddings : Embeddings) (index_path : string)
    : M (option loc) :=
  λ w, match load_local index_path (Some embeddings) w with
       | (Raised _, w') => (Returned None, w')
       | run => run
       end.

(** [db.remove_documents_where]: langchain's FAISS class has no attribute
    of that name, so looking it up on a store raises. *)
Definition remove_documents_where (db : loc) (pred : Document → Prop) : M unit :=
  raise "AttributeError".

(** [db.search(query, k=k, search_type="similarity")] and the retriever
    of [db.as_retriever(search_kwargs={"k": k})] *)
Definition search (db : loc) (query : string) (k : Z) : M (list Document) :=
  s ← read_store db;
  log (Search query k);;
  lift (similarity (docstore s) query k).

End Faiss.

(** ** Console output, instances and the expressions the methods share *)
Section Runtime.
Context `{Collaborators}.

(** [print(text)] *)
Definition print (text : string) : M unit := log (Stdout (text +:+ nl)).

(** [sys.stderr.write(text)] *)
Definition stderr_write (text : string) : M unit := log (Stderr text).

(** A new instance of class [c], before [__init__] runs. *)
Definition alloc_instance (c : Class) : M loc :=
  λ w, let l := fresh (dom (objects w)) in
       (Returned l, set_objects <[l := mkInstance c None None None None]> w).

Definition set_config (v : Config) (o : Instance) : Instance :=
  mkInstance (cls o) (Some v) (llm_attr o) (root_dir o) (vector_store o).
Definition set_llm (v : Model) (o : Instance) : Instance :=
  mkInstance (cls o) (config o) (Some v) (root_dir o) (vector_store o).
Definition set_root_dir (v : string) (o : Instance) : Instance :=
  mkInstance (cls o) (config o) (llm_attr o) (Some v) (vector_store o).
Definition set_vector_store (v : loc) (o : Instance) : Instance :=
  mkInstance (cls o) (config o) (llm_attr o) (root_dir o) (Some v).

(** [os.path.join(normpath(root_dir), "vector_store", index)] *)
Definition index_path_of (root index : string) : string :=
  path_join (normpath root) ["vector_store"; index].

(** [[os.path.abspath(s.metadata["source"]) for s in docs]] *)
Definition file_paths (docs : list Document) : list string :=
  map (λ s, abspath (source (metadata s))) docs.

(** ["\n".join([f"content: \n```{s.page_content}```" for s in docs])] *)
Definition content_block (docs : list Document) : string :=
  str_join nl (map (λ s, "content: " +:+ nl +:+ "```" +:+ page_content s +:+ "```") docs).
End Runtime.


(** ** [talk_codebase/llm.py] *)
Module llm.
Section defs.
Context `{Collaborators}.

(** [BaseLLM.embedding_search] *)
Definition embedding_search (self : loc) (query : string) (k : Z) : M (list Document) :=
  vs ← getattr self vector_store;
  search vs query k.

(** [BaseLLM._create_vector_store] *)
Definition _create_vector_store (self : loc) (embeddings : Embeddings)
    (index root_dir : string) (force_recreate : bool) : M loc :=
  let root_dir := normpath root_dir in
  let index_path := path_join root_dir ["vector_store"; index] in
  let build : M loc :=
    log (LoadFiles root_dir);;
    let docs := load_files root_dir in
    if bool_decide (length docs = 0) then
      stderr_write "✘ No documents found";;
      exit 0
    else
      cfg ← getattr self config;
      text_splitter ← RecursiveCharacterTextSplitter (chunk_size cfg) (chunk_overlap cfg);
      texts ← splitter_split_documents text_splitter docs;
      (if bool_decide (index = MODEL_TYPES_OPENAI) then
         stderr_write ("Creating a vector store with estimated cost ~$"
                       +:+ cost_fixed5 docs (model_name cfg))
       else mret ());;
      db ← from_documents texts embeddings;
      add_documents db texts;;
      save_local db index_path;;
      mret db in
  if negb force_recreate then
    new_db ← get_local_vector_store embeddings index_path;
    match new_db with
    | Some new_db =>
        stderr_write ("Existing local vector store found: " +:+ store_str new_db);;
        mret new_db
    | None => build
    end
  else build.

(** [LocalLLM._create_store] *)
Definition LocalLLM_create_store (self : loc) (root_dir : string) : M loc :=
  let embeddings := HuggingFaceEmbeddings "all-MiniLM-L6-v2" in
  _create_vector_store self embeddings MODEL_TYPES_LOCAL root_dir false.

(** [OpenAILLM._create_store] *)
Definition OpenAILLM_create_store (self : loc) (root_dir : string)
    (force_recreate : bool) : M loc :=
  cfg ← getattr self config;
  let embeddings := OpenAIEmbeddings (api_key cfg) in
  _create_vector_store self embeddings MODEL_TYPES_OPENAI root_dir force_recreate.

(** [self._create_store(root_dir)], dispatched on the object's class *)
Definition _create_store (self : loc) (root_dir : string) : M loc :=
  c ← getattr self (λ o, Some (cls o));
  match c with
  | LocalLLM => LocalLLM_create_store self root_dir
  | OpenAILLM => OpenAILLM_create_store self root_dir false
  end.

(** [self._create_model()], dispatched on the object's class *)
Definition _create_model (self : loc) : M Model :=
  c ← getattr self (λ o, Some (cls o));
  cfg ← getattr self config;
  match c with
  | LocalLLM => mret (GPT4All (model_path cfg) (max_tokens cfg))
  | OpenAILLM => mret (ChatOpenAI (model_name cfg) (api_key cfg) (max_tokens cfg))
  end.

(** [BaseLLM.__init__] *)
Definition __init__ (self : loc) (root_dir : string) (config : Config) : M unit :=
  setattr self (set_config config);;
  m ← _create_model self;
  setattr self (set_llm m);;
  setattr self (set_root_dir root_dir);;
  vs ← _create_store self root_dir;
  setattr self (set_vector_store vs).

(** The template of [LocalLLM.send_query] with [{question}] and
    [{content}] filled in, as [LLMChain.run(query)] sends it. *)
Definition LocalLLM_template (question content : string) : string :=
  "Given the following content, your task is to answer the question." +:+ nl
  +:+ "Question: " +:+ question +:+ nl +:+ content.

(** The system prompt of [OpenAILLM.send_query]. *)
Definition OpenAILLM_template (content : string) : string :=
  "Given the following snippets of related content, respond with the answer to the question. "
  +:+ nl +:+ content.

(** [LocalLLM.send_query] *)
Definition LocalLLM_send_query (self : loc) (query : string) : M unit :=
  cfg ← getattr self config;
  docs ← embedding_search self query (k cfg);
  let content := content_block docs in
  let prompt := LocalLLM_template query content in
  m ← getattr self llm_attr;
  log (Complete m (PromptText prompt));;
  let file_paths := file_paths docs in
  stderr_write (str_join nl (map (λ file_path, file_path +:+ ":") file_paths)).

(** [OpenAILLM.send_query] *)
Definition OpenAILLM_send_query (self : loc) (query : string) : M unit :=
  cfg ← getattr self config;
  docs ← embedding_search self query (k cfg);
  let content := content_block docs in
  let prompt := OpenAILLM_template content in
  let messages := [SystemMessage prompt; HumanMessage query] in
  m ← getattr self llm_attr;
  log (Complete m (PromptMessages messages));;
  let file_paths := file_paths docs in
  stderr_write ("AI prompt:" +:+ nl +:+ prompt);;
  stderr_write ("User query:" +:+ nl +:+ query);;
  stderr_write ("Relevant files:" +:+ nl +:+ list_str file_paths).

(** [self.send_query(query)], dispatched on the object's class *)
Definition send_query (self : loc) (query : string) : M unit :=
  c ← getattr self (λ o, Some (cls o));
  match c with
  | LocalLLM => LocalLLM_send_query self query
  | OpenAILLM => OpenAILLM_send_query self query
  end.

(** [factory_llm] *)
Definition factory_llm (root_dir : string) (config : Config) : M loc :=
  let model_type := model_type config in
  if bool_decide (model_type = "openai") then
    self ← alloc_instance OpenAILLM; __init__ self root_dir config;; mret self
  else
    self ← alloc_instance LocalLLM; __init__ self root_dir config;; mret self.
End defs.
End llm.

(** ** [talk_codebase/LLM.py] *)
Module LLM.
Section defs.
Context `{Collaborators}.

(** [qa = RetrievalQA.from_chain_type(llm, "stuff", retriever,
    return_source_documents=True); qa(question)], giving
    [answer["source_documents"]] *)
Definition RetrievalQA (m : Model) (vs : loc) (k : Z) (question : string)
    : M (list Document) :=
  docs ← search vs question k;
  log (Complete m (PromptText (stuff_prompt docs question)));;
  mret docs.

(** [BaseLLM.send_query] *)
Definition send_query (self : loc) (question : string) : M unit :=
  cfg ← getattr self config;
  m ← getattr self llm_attr;
  vs ← getattr self vector_store;
  source_documents ← RetrievalQA m vs (k cfg) question;
  print (nl +:+ str_join nl
           (map (λ s, "📄 " +:+ abspath (source (metadata s)) +:+ ":") source_documents)).

(** [BaseLLM._create_vector_store] *)
Definition _create_vector_store (self : loc) (embeddings : Embeddings)
    (index root_dir : string) : M loc :=
  let root_dir := normpath root_dir in
  let index_path := path_join root_dir ["vector_store"; index] in
  new_db ← get_local_vector_store embeddings index_path;
  match new_db with
  | Some new_db => print (store_str new_db);; mret new_db
  | None =>
      log (LoadFiles root_dir);;
      let docs := load_files root_dir in
      if bool_decide (length docs = 0) then
        print "✘ No documents found";;
        exit 0
      else
        cfg ← getattr self config;
        text_splitter ← RecursiveCharacterTextSplitter (chunk_size cfg)
                          (chunk_overlap cfg);
        texts ← splitter_split_documents text_splitter docs;
        (if bool_decide (index = MODEL_TYPES_OPENAI) then
           print (cost_str docs (model_name cfg))
         else mret ());;
        log (HaloStart ("Creating vector store for " +:+ pretty (length docs)
                        +:+ " documents"));;
        db ← from_documents texts embeddings;
        add_documents db texts;;
        save_local db index_path;;
        log (HaloSucceed ("Created vector store for " +:+ pretty (length docs)
                          +:+ " documents"));;
        mret db
  end.

(** The name [load_file] of line 86.  The module neither defines nor
    imports it (line 15 imports [load_files], [get_local_vector_store],
    [calculate_cost] and [StreamStdOut]), so evaluating the name raises. *)
Definition load_file (updated_file_path : string) : M (list Document) :=
  raise "NameError".

(** The loop [for updated_file_path in updated_file_paths]; [continue]
    goes on with the rest of the list. *)
Fixpoint update_each (db : loc) (text_splitter : TextSplitter)
    (updated_file_paths : list string) : M unit :=
  match updated_file_paths with
  | [] => mret ()
  | updated_file_path :: rest =>
      updated_docs ← load_file updated_file_path;
      (if bool_decide (length updated_docs = 0) then
         print ("✘ No updated documents found for file path: " +:+ updated_file_path)
       else
         updated_texts ← splitter_split_documents text_splitter updated_docs;
         remove_documents_where db
           (λ doc, source (metadata doc) = updated_file_path);;
         add_documents db updated_texts);;
      update_each db text_splitter rest
  end.

(** [BaseLLM._update_vector_store].  Line 74 is
    [FAISS.load_local(index_path)], without [embeddings]. *)
Definition _update_vector_store (self : loc) (updated_file_paths : list string)
    (embeddings : Embeddings) (index root_dir : string) : M loc :=
  let root_dir := normpath root_dir in
  let index_path := path_join root_dir ["vector_store"; index] in
  db ← load_local index_path None;
  match db with
  | None =>
      print "✘ No existing vector store found";;
      exit 0
  | Some db =>
      cfg ← getattr self config;
      text_splitter ← RecursiveCharacterTextSplitter (chunk_size cfg)
                        (chunk_overlap cfg);
      log (HaloStart ("Updating vector store for " +:+ pretty (length updated_file_paths)
                      +:+ " documents"));;
      update_each db text_splitter updated_file_paths;;
      save_local db index_path;;
      log (HaloSucceed ("Updated vector store for "
                        +:+ pretty (length updated_file_paths) +:+ " documents"));;
      mret db
  end.

(** [LocalLLM._create_store] *)
Definition LocalLLM_create_store (self : loc) (root_dir : string) : M loc :=
  let embeddings := HuggingFaceEmbeddings "all-MiniLM-L6-v2" in
  _create_vector_store self embeddings MODEL_TYPES_LOCAL root_dir.

(** [OpenAILLM._create_store] *)
Definition OpenAILLM_create_store (self : loc) (root_dir : string) : M loc :=
  cfg ← getattr self config;
  let embeddings := OpenAIEmbeddings (api_key cfg) in
  _create_vector_store self embeddings MODEL_TYPES_OPENAI root_dir.

(** [self._create_store(root_dir)], dispatched on the object's class *)
Definition _create_store (self : loc) (root_dir : string) : M loc :=
  c ← getattr self (λ o, Some (cls o));
  match c with
  | LocalLLM => LocalLLM_create_store self root_dir
  | OpenAILLM => OpenAILLM_create_store self root_dir
  end.

(** [self._create_model()], dispatched on the object's class *)
Definition _create_model (self : loc) : M Model :=
  c ← getattr self (λ o, Some (cls o));
  cfg ← getattr self config;
  match c with
  | LocalLLM => mret (GPT4All (model_path cfg) (max_tokens cfg))
  | OpenAILLM => mret (ChatOpenAI (model_name cfg) (api_key cfg) (max_tokens cfg))
  end.

(** [BaseLLM.__init__] *)
Definition __init__ (self : loc) (root_dir : string) (config : Config) : M unit :=
  setattr self (set_config config);;
  m ← _create_model self;
  setattr self (set_llm m);;
  setattr self (set_root_dir root_dir);;
  vs ← _create_store self root_dir;
  setattr self (set_vector_store vs).

(** [factory_llm] *)
Definition factory_llm (root_dir : string) (config : Config) : M loc :=
  print "SET UP";;
  if bool_decide (model_type config = "openai") then
    self ← alloc_instance OpenAILLM; __init__ self root_dir config;; mret self
  else
    self ← alloc_instance LocalLLM; __init__ self root_dir config;; mret self.
End defs.
End LLM.


(** ** Trace observations *)

Definition is_embed (e : Event) : bool :=
  match e with Embed _ _ => true | _ => false end.
Definition is_save (e : Event) : bool :=
  match e with SaveLocal _ _ => true | _ => false end.
Definition is_load (e : Event) : bool :=
  match e with LoadFiles _ => true | _ => false end.
Definition is_split (e : Event) : bool :=
  match e with Split _ _ _ => true | _ => false end.

(** The number of events of a kind in a trace. *)
Definition count_events (kind : Event → bool) (t : list Event) : nat :=
  length (List.filter kind t).

(** ** Derived notions used by the statements *)

(** The world [w] after the events [t], nothing else changed. *)
Definition extend (w : World) (t : list Event) : World :=
  mkWorld (stores w) (objects w) (disk w) (trace w ++ t).

Section Notions.
Context `{Collaborators}.

(** The state [__init__] leaves an instance in: every attribute is
    assigned and [vector_store] refers to a live FAISS object. *)
Definition ready (w : World) (self : loc) (c : Class) (cfg : Config) (m : Model)
    (vs : loc) (s : Faiss) : Prop :=
  (∃ root, objects w !! self
           = Some (mkInstance c (Some cfg) (Some m) (Some root) (Some vs)))
  ∧ stores w !! vs = Some s.

(** The events of building an index from [docs], after the loader ran;
    [note] is the cost report, when there is one. *)
Definition build_events (emb : Embeddings) (cfg : Config) (index_path : string)
    (docs : list Document) (note : list Event) : list Event :=
  let texts := split_documents (chunk_size cfg) (chunk_overlap cfg) docs in
  [Split (chunk_size cfg) (chunk_overlap cfg) docs] ++ note
  ++ [Embed (Some emb) texts; Embed (Some emb) texts;
      SaveLocal index_path (texts ++ texts)].


(** What [LocalLLM.send_query] writes for a list of paths. *)
Definition path_lines (paths : list string) : string :=
  str_join nl (map (λ file_path, file_path +:+ ":") paths).

(** The class [factory_llm] instantiates for a configuration, and what the
    methods of a class construct from it: the model of [_create_model],
    the provider and the index name of [_create_store]. *)
Definition class_of (cfg : Config) : Class :=
  if bool_decide (model_type cfg = "openai") then OpenAILLM else LocalLLM.

Definition model_of (c : Class) (cfg : Config) : Model :=
  match c with
  | LocalLLM => GPT4All (model_path cfg) (max_tokens cfg)
  | OpenAILLM => ChatOpenAI (model_name cfg) (api_key cfg) (max_tokens cfg)
  end.

Definition embeddings_of (c : Class) (cfg : Config) : Embeddings :=
  match c with
  | LocalLLM => HuggingFaceEmbeddings "all-MiniLM-L6-v2"
  | OpenAILLM => OpenAIEmbeddings (api_key cfg)
  end.

Definition index_of (c : Class) : string :=
  match c with
  | LocalLLM => MODEL_TYPES_LOCAL
  | OpenAILLM => MODEL_TYPES_OPENAI
  end.

(** The instance [__init__] has filled in, before and after
    [self.vector_store] is assigned. *)
Definition constructing (cfg : Config) (root : string) : Instance :=
  mkInstance (class_of cfg) (Some cfg) (Some (model_of (class_of cfg) cfg)) (Some root) None.

Definition constructed (cfg : Config) (root : string) (vs : loc) : Instance :=
  mkInstance (class_of cfg) (Some cfg) (Some (model_of (class_of cfg) cfg)) (Some root)
             (Some vs).

(** A computation keeps a relation between the world before and after it,
    whatever its outcome. *)
Definition respects {A} (R : World → World → Prop) (m : M A) : Prop :=
  ∀ w, R w (snd (m w)).

(** Only events were added. *)
Definition only_logs (w w' : World) : Prop := ∃ t, w' = extend w t.

(** The instances are as they were. *)
Definition same_objects (w w' : World) : Prop := objects w' = objects w.

(** The disk is as it was, except perhaps at [path]. *)
Definition same_disk_but (path : string) (w w' : World) : Prop :=
  ∀ other, other ≠ path → disk w' !! other = disk w !! other.

(** The world in which [__init__] calls [_create_store]: the new instance is
    at a fresh location with everything but [vector_store] assigned, and
    [note] has been printed. *)
Definition under_construction (w : World) (cfg : Config) (root : string)
    (note : list Event) : World :=
  mkWorld (stores w)
          (<[fresh (dom (objects w)) := constructing cfg root]> (objects w))
          (disk w) (trace w ++ note).
End Notions.

(** Order-preserving deduplication in the specification's words: every
    distinct path once, at the position of its first occurrence. *)
Fixpoint dedup_first (paths : list string) : list string :=
  match paths with
  | [] => []
  | p :: rest => p :: filter (λ q, q ≠ p) (dedup_first rest)
  end.

(** ** A concrete repository

    A root directory ["repo"] with two short files, and collaborators that
    behave as the real ones do on it: the paths are already normal, each
    file is one chunk, and the index returns its first [k] entries and
    rejects a [k] below 1. *)
Module Scenario.
Definition doc (path text : string) : Document := mkDocument text (mkMetadata path).

#[local] Instance collaborators : Collaborators := {|
  normpath := id;
  abspath := λ p, if starts_with_sep p then p else "/work/" +:+ p;
  MODEL_TYPES_LOCAL := "local";
  MODEL_TYPES_OPENAI := "openai";
  load_files := λ root,
    if bool_decide (root = "repo")
    then [doc "repo/a.py" "x = 1"; doc "repo/b.py" "y = 2"] else [];
  split_documents := λ _ _ docs, docs;
  cost_str := λ _ _, "0.0";
  cost_fixed5 := λ _ _, "0.00000";
  store_str := λ l, "<FAISS " +:+ pretty l +:+ ">";
  list_str := λ l, "[" +:+ str_join ", " (map (λ p, "'" +:+ p +:+ "'") l) +:+ "]";
  similarity := λ entries _ k,
    if bool_decide (k < 1)%Z then Raised "AssertionError"
    else Returned (take (Z.to_nat k) entries);
  stuff_prompt := λ docs question, content_block docs +:+ nl +:+ question |}.

Definition settings (top : Z) : Config :=
  mkConfig "local" "gpt-3.5-turbo" "/models/local.bin" "sk" 200 20 512 top.

(** A configuration with the chunk size and the overlap exchanged. *)
Definition oversized : Config :=
  mkConfig "local" "gpt-3.5-turbo" "/models/local.bin" "sk" 20 200 512 2.

Definition empty : World := mkWorld ∅ ∅ ∅ [].

Definition local_model : Model := GPT4All "/models/local.bin" 512.

(** An initialised instance of class [c] at location 0 whose store, at
    location 0 of the stores, holds [entries]. *)
Definition serving (c : Class) (top : Z) (entries : list Document) : World :=
  mkWorld {[ 0 := mkFaiss None entries ]}
          {[ 0 := mkInstance c (Some (settings top)) (Some local_model)
                             (Some "repo") (Some 0) ]}
          ∅ [].

Definition minilm : Embeddings := HuggingFaceEmbeddings "all-MiniLM-L6-v2".

(** The chunks of the two files. *)
Definition a_old : Document := doc "repo/a.py" "x = 1".
Definition b_old : Document := doc "repo/b.py" "y = 2".

(** A first call of [_create_vector_store] on the repository, nothing
    being persisted yet. *)
Definition first_call : Outcome loc * World :=
  llm._create_vector_store 0 minilm "local" "repo" false (serving LocalLLM 2 []).

(** The world after [factory_llm("repo", config)] has built the index. *)
Definition indexed_by_llm (top : Z) : Outcome loc * World :=
  llm.factory_llm "repo" (settings top) empty.
Definition indexed_by_LLM (top : Z) : Outcome loc * World :=
  LLM.factory_llm "repo" (settings top) empty.

(** The indexed repository beside the index of a directory ["elsewhere"]
    that holds no document any more. *)
Definition c_old : Document := doc "elsewhere/c.py" "z = 3".
Definition beside_abandoned : World :=
  set_disk <["elsewhere/vector_store/local" := [c_old]]> (snd (indexed_by_LLM 2)).
End Scenario.

(** ** [os.path.join] on the paths the code builds *)

Example join_index_path :
  path_join "repo" ["vector_store"; "local"] = "repo/vector_store/local".
Proof. reflexivity. Qed.

Example join_after_separator :
  path_join "/srv/repo/" ["vector_store"; "openai"] = "/srv/repo/vector_store/openai".
Proof. reflexivity. Qed.

Example join_absolute_component :
  path_join "repo" ["vector_store"; "/abs"] = "/abs".
Proof. reflexivity. Qed.

Lemma count_events_app kind t1 t2 :
  count_events kind (t1 ++ t2) = count_events kind t1 + count_events kind t2.
Proof. unfold count_events. by rewrite List.filter_app, length_app. Qed.

Lemma fresh_store_unused (w : World) : stores w !! fresh (dom (stores w)) = None.
Proof. apply not_elem_of_dom, is_fresh. Qed.

#[local] Arguments path_join : simpl never.
#[local] Arguments String.append : simpl never.
#[local] Arguments str_join : simpl never.


(** ** Running the monad *)

Lemma bind_returned {A B} (m : M A) (f : A → M B) w a w' :
  m w = (Returned a, w') → (m ≫= f) w = f a w'.
Proof. unfold mbind, M_bind. by intros ->. Qed.

Lemma bind_exited {A B} (m : M A) (f : A → M B) w c w' :
  m w = (Exited c, w') → (m ≫= f) w = (Exited c, w').
Proof. unfold mbind, M_bind. by intros ->. Qed.

Lemma bind_raised {A B} (m : M A) (f : A → M B) w e w' :
  m w = (Raised e, w') → (m ≫= f) w = (Raised e, w').
Proof. unfold mbind, M_bind. by intros ->. Qed.

Lemma log_run e w :
  log e w = (Returned (), mkWorld (stores w) (objects w) (disk w) (trace w ++ [e])).
Proof. done. Qed.

Lemma log_if_run (b : bool) e w :
  (if b then log e else mret ()) w =
    (Returned (),
     mkWorld (stores w) (objects w) (disk w) (trace w ++ if b then [e] else [])).
Proof. destruct b; [done | ]. rewrite app_nil_r. by destruct w. Qed.

Lemma getattr_run {A} self (field : Instance → option A) w a :
  objects w !! self ≫= field = Some a → getattr self field w = (Returned a, w).
Proof. unfold getattr. by intros ->. Qed.

Lemma getattr_missing {A} self (field : Instance → option A) w :
  objects w !! self ≫= field = None → getattr self field w = (Raised "AttributeError", w).
Proof. unfold getattr. by intros ->. Qed.

(** One step of a computation: run the head of a bind with a lemma. *)
Ltac step_with lem :=
  erewrite bind_returned; [ | solve [ lem ] ]; cbn [stores objects disk trace embedding_function docstore].
Ltac step_log := step_with ltac:(apply log_run).

Lemma bool_decide_empty {A} (l : list A) : l = [] → bool_decide (length l = 0) = true.
Proof. intros ->. done. Qed.

Lemma bool_decide_nonempty {A} (l : list A) : l ≠ [] → bool_decide (length l = 0) = false.
Proof. intros Hl. apply bool_decide_eq_false. by intros ?%nil_length_inv. Qed.

Section Faiss_runs.
Context `{Collaborators}.

Lemma read_store_run db w s :
  stores w !! db = Some s → read_store db w = (Returned s, w).
Proof. unfold read_store. by intros ->. Qed.

Lemma splitter_run size overlap w :
  (overlap ≤ size)%Z →
  RecursiveCharacterTextSplitter size overlap w
  = (Returned (mkTextSplitter size overlap), w).
Proof.
  intros Hle. unfold RecursiveCharacterTextSplitter.
  rewrite bool_decide_false by lia. done.
Qed.

Lemma splitter_rejects size overlap w :
  (size < overlap)%Z →
  RecursiveCharacterTextSplitter size overlap w = (Raised "ValueError", w).
Proof.
  intros Hlt. unfold RecursiveCharacterTextSplitter.
  rewrite bool_decide_true by lia. done.
Qed.

Lemma split_documents_run size overlap docs w :
  splitter_split_documents (mkTextSplitter size overlap) docs w
  = (Returned (split_documents size overlap docs),
     mkWorld (stores w) (objects w) (disk w) (trace w ++ [Split size overlap docs])).
Proof. done. Qed.

Lemma from_documents_run texts emb w :
  texts ≠ [] →
  from_documents texts emb w =
    (Returned (fresh (dom (stores w))),
     mkWorld (<[fresh (dom (stores w)) := mkFaiss (Some emb) texts]> (stores w))
             (objects w) (disk w) (trace w ++ [Embed (Some emb) texts])).
Proof.
  intros Htexts. unfold from_documents. step_log.
  by rewrite bool_decide_nonempty.
Qed.

Lemma from_documents_empty emb w :
  from_documents [] emb w =
    (Raised "IndexError",
     mkWorld (stores w) (objects w) (disk w) (trace w ++ [Embed (Some emb) []])).
Proof. done. Qed.

Lemma add_documents_run db texts w s :
  stores w !! db = Some s →
  add_documents db texts w =
    (Returned (),
     mkWorld (<[db := mkFaiss (embedding_function s) (docstore s ++ texts)]> (stores w))
             (objects w) (disk w) (trace w ++ [Embed (embedding_function s) texts])).
Proof.
  intros Hs. unfold add_documents.
  step_with ltac:(apply read_store_run, Hs). by step_log.
Qed.

Lemma save_local_run db index_path w s :
  stores w !! db = Some s →
  save_local db index_path w =
    (Returned (),
     mkWorld (stores w) (objects w) (<[index_path := docstore s]> (disk w))
             (trace w ++ [SaveLocal index_path (docstore s)])).
Proof.
  intros Hs. unfold save_local.
  step_with ltac:(apply read_store_run, Hs). by step_log.
Qed.

Lemma load_local_found index_path emb w entries :
  disk w !! index_path = Some entries →
  load_local index_path (Some emb) w =
    (Returned (Some (fresh (dom (stores w)))),
     mkWorld (<[fresh (dom (stores w)) := mkFaiss (Some emb) entries]> (stores w))
             (objects w) (disk w) (trace w ++ [LoadLocal index_path])).
Proof.
  intros Hd. unfold load_local. step_log.
  erewrite bind_returned; [ | unfold read_disk; simpl; by rewrite Hd ].
  done.
Qed.

Lemma load_local_missing index_path emb w :
  disk w !! index_path = None →
  load_local index_path (Some emb) w =
    (Raised "RuntimeError",
     mkWorld (stores w) (objects w) (disk w) (trace w ++ [LoadLocal index_path])).
Proof.
  intros Hd. unfold load_local. step_log.
  erewrite bind_returned; [ | unfold read_disk; simpl; by rewrite Hd ].
  done.
Qed.

(** Without [embeddings] the call is refused before anything happens. *)
Lemma load_local_without_embeddings index_path w :
  load_local index_path None w = (Raised "TypeError", w).
Proof. done. Qed.

(** [load_local] never gives [None]: it returns a store or raises. *)
Lemma load_local_not_none index_path emb w :
  fst (load_local index_path emb w) ≠ Returned None.
Proof.
  destruct emb as [emb | ]; [ | by rewrite load_local_without_embeddings].
  destruct (disk w !! index_path) as [entries | ] eqn:Hd.
  - by rewrite (load_local_found _ _ _ _ Hd).
  - by rewrite (load_local_missing _ _ _ Hd).
Qed.

Lemma get_local_found index_path emb w entries :
  disk w !! index_path = Some entries →
  get_local_vector_store emb index_path w =
    (Returned (Some (fresh (dom (stores w)))),
     mkWorld (<[fresh (dom (stores w)) := mkFaiss (Some emb) entries]> (stores w))
             (objects w) (disk w) (trace w ++ [LoadLocal index_path])).
Proof.
  intros Hd. unfold get_local_vector_store. by rewrite (load_local_found _ _ _ _ Hd).
Qed.

Lemma get_local_missing index_path emb w :
  disk w !! index_path = None →
  get_local_vector_store emb index_path w =
    (Returned None,
     mkWorld (stores w) (objects w) (disk w) (trace w ++ [LoadLocal index_path])).
Proof.
  intros Hd. unfold get_local_vector_store. by rewrite (load_local_missing _ _ _ Hd).
Qed.

Lemma search_run db query k w s :
  stores w !! db = Some s →
  search db query k w =
    (similarity (docstore s) query k,
     mkWorld (stores w) (objects w) (disk w) (trace w ++ [Search query k])).
Proof.
  intros Hs. unfold search.
  step_with ltac:(apply read_store_run, Hs). by step_log.
Qed.
End Faiss_runs.

Section Create.
Context `{Collaborators}.

Lemma llm_create_reuse self emb index root w entries :
  disk w !! index_path_of root index = Some entries →
  let db := fresh (dom (stores w)) in
  llm._create_vector_store self emb index root false w =
    (Returned db,
     mkWorld (<[db := mkFaiss (Some emb) entries]> (stores w)) (objects w) (disk w)
             (trace w ++ [LoadLocal (index_path_of root index);
                          Stderr ("Existing local vector store found: "
                                  +:+ store_str db)])).
Proof.
  intros Hd db. unfold llm._create_vector_store, index_path_of in *. cbn [negb].
  step_with ltac:(apply get_local_found, Hd).
  unfold stderr_write. step_log. unfold mret, M_ret.
  by rewrite <- app_assoc.
Qed.

Lemma llm_create_build self emb index root force w cfg :
  (force = false → disk w !! index_path_of root index = None) →
  objects w !! self ≫= config = Some cfg →
  load_files (normpath root) ≠ [] →
  (chunk_overlap cfg ≤ chunk_size cfg)%Z →
  split_documents (chunk_size cfg) (chunk_overlap cfg) (load_files (normpath root)) ≠ [] →
  let docs := load_files (normpath root) in
  let texts := split_documents (chunk_size cfg) (chunk_overlap cfg) docs in
  let db := fresh (dom (stores w)) in
  llm._create_vector_store self emb index root force w =
    (Returned db,
     mkWorld (<[db := mkFaiss (Some emb) (texts ++ texts)]> (stores w))
             (objects w)
             (<[index_path_of root index := texts ++ texts]> (disk w))
             (trace w
              ++ (if force then [] else [LoadLocal (index_path_of root index)])
              ++ [LoadFiles (normpath root)]
              ++ build_events emb cfg (index_path_of root index) docs
                   (if bool_decide (index = MODEL_TYPES_OPENAI)
                    then [Stderr ("Creating a vector store with estimated cost ~$"
                                  +:+ cost_fixed5 docs (model_name cfg))]
                    else []))).
Proof.
  intros Hd Hcfg Hdocs Hsize Htexts docs texts db.
  unfold llm._create_vector_store, build_events, index_path_of in *.
  destruct force; cbn [negb];
    [ | step_with ltac:(apply get_local_missing; auto) ];
    step_log; rewrite bool_decide_nonempty by done;
    step_with ltac:(apply getattr_run, Hcfg);
    step_with ltac:(by apply splitter_run);
    step_with ltac:(apply split_documents_run);
    step_with ltac:(apply log_if_run);
    step_with ltac:(by apply from_documents_run);
    step_with ltac:(apply add_documents_run, lookup_insert_eq);
    step_with ltac:(apply save_local_run, lookup_insert_eq);
    unfold mret, M_ret; rewrite insert_insert_eq;
    rewrite <- !app_assoc; simpl; done.
Qed.

Lemma llm_create_no_documents self emb index root force w :
  (force = false → disk w !! index_path_of root index = None) →
  load_files (normpath root) = [] →
  llm._create_vector_store self emb index root force w =
    (Exited 0,
     extend w ((if force then [] else [LoadLocal (index_path_of root index)])
               ++ [LoadFiles (normpath root); Stderr "✘ No documents found"])).
Proof.
  intros Hd Hdocs. unfold llm._create_vector_store, index_path_of, extend in *.
  destruct force; cbn [negb];
    [ | step_with ltac:(apply get_local_missing; auto) ];
    step_log; rewrite bool_decide_empty by done;
    unfold stderr_write; step_log; unfold exit;
    rewrite <- !app_assoc; simpl; done.
Qed.

Lemma llm_create_no_config self emb index root force w :
  (force = false → disk w !! index_path_of root index = None) →
  load_files (normpath root) ≠ [] →
  objects w !! self ≫= config = None →
  fst (llm._create_vector_store self emb index root force w) = Raised "AttributeError".
Proof.
  intros Hd Hdocs Hcfg. unfold llm._create_vector_store, index_path_of in *.
  destruct force; cbn [negb];
    [ | step_with ltac:(apply get_local_missing; auto) ];
    step_log; rewrite bool_decide_nonempty by done;
    (erewrite bind_raised; [done | ]); by apply getattr_missing.
Qed.

(** The splitter refuses the configuration: nothing is split, embedded or
    saved. *)
Lemma llm_create_bad_overlap self emb index root force w cfg :
  (force = false → disk w !! index_path_of root index = None) →
  objects w !! self ≫= config = Some cfg →
  load_files (normpath root) ≠ [] →
  (chunk_size cfg < chunk_overlap cfg)%Z →
  llm._create_vector_store self emb index root force w =
    (Raised "ValueError",
     extend w ((if force then [] else [LoadLocal (index_path_of root index)])
               ++ [LoadFiles (normpath root)])).
Proof.
  intros Hd Hcfg Hdocs Hsize.
  unfold llm._create_vector_store, index_path_of, extend in *.
  destruct force; cbn [negb];
    [ | step_with ltac:(apply get_local_missing; auto) ];
    step_log; rewrite bool_decide_nonempty by done;
    step_with ltac:(apply getattr_run, Hcfg);
    (erewrite bind_raised; [ | by apply splitter_rejects ]);
    rewrite <- ?app_assoc; simpl; done.
Qed.

(** The documents split into no chunk: no store is built and nothing is
    saved. *)
Lemma llm_create_no_chunks self emb index root force w cfg :
  (force = false → disk w !! index_path_of root index = None) →
  objects w !! self ≫= config = Some cfg →
  load_files (normpath root) ≠ [] →
  (chunk_overlap cfg ≤ chunk_size cfg)%Z →
  split_documents (chunk_size cfg) (chunk_overlap cfg) (load_files (normpath root)) = [] →
  let docs := load_files (normpath root) in
  llm._create_vector_store self emb index root force w =
    (Raised "IndexError",
     extend w ((if force then [] else [LoadLocal (index_path_of root index)])
               ++ [LoadFiles (normpath root);
                   Split (chunk_size cfg) (chunk_overlap cfg) docs]
               ++ (if bool_decide (index = MODEL_TYPES_OPENAI)
                   then [Stderr ("Creating a vector store with estimated cost ~$"
                                 +:+ cost_fixed5 docs (model_name cfg))]
                   else [])
               ++ [Embed (Some emb) []])).
Proof.
  intros Hd Hcfg Hdocs Hsize Htexts docs.
  unfold llm._create_vector_store, index_path_of, extend in *.
  destruct force; cbn [negb];
    [ | step_with ltac:(apply get_local_missing; auto) ];
    step_log; rewrite bool_decide_nonempty by done;
    step_with ltac:(apply getattr_run, Hcfg);
    step_with ltac:(by apply splitter_run);
    step_with ltac:(apply split_documents_run);
    step_with ltac:(apply log_if_run);
    rewrite Htexts;
    (erewrite bind_raised; [ | apply from_documents_empty ]);
    cbn [stores objects disk trace];
    rewrite <- !app_assoc; simpl; done.
Qed.

Lemma llm_create_build_fails self emb index root force w cfg :
  (force = false → disk w !! index_path_of root index = None) →
  objects w !! self ≫= config = Some cfg →
  load_files (normpath root) ≠ [] →
  ¬ ((chunk_overlap cfg ≤ chunk_size cfg)%Z
     ∧ split_documents (chunk_size cfg) (chunk_overlap cfg) (load_files (normpath root))
       ≠ []) →
  ∃ exn w', llm._create_vector_store self emb index root force w = (Raised exn, w').
Proof.
  intros Hd Hcfg Hdocs Hbad.
  destruct (decide (chunk_overlap cfg ≤ chunk_size cfg)%Z) as [Hsize | Hsize].
  - destruct (decide (split_documents (chunk_size cfg) (chunk_overlap cfg)
                        (load_files (normpath root)) = [])) as [Htexts | Htexts].
    + eexists _, _. by apply llm_create_no_chunks.
    + by destruct Hbad.
  - eexists _, _. eapply llm_create_bad_overlap; [done | exact Hcfg | done | lia].
Qed.

(** Whenever [_create_vector_store] returns, an index is persisted at the
    index path. *)
Lemma llm_create_returns_persisted self emb index root force w db w' :
  llm._create_vector_store self emb index root force w = (Returned db, w') →
  is_Some (disk w' !! index_path_of root index).
Proof.
  intros Hrun.
  destruct (decide (force = false ∧ is_Some (disk w !! index_path_of root index)))
    as [[-> [entries Hd]] | Hbuild].
  { rewrite (llm_create_reuse _ _ _ _ _ _ Hd) in Hrun. by simplify_eq. }
  assert (force = false → disk w !! index_path_of root index = None) as Hd.
  { intros ->. apply eq_None_not_Some. naive_solver. }
  destruct (decide (load_files (normpath root) = [])) as [Hdocs | Hdocs].
  { by rewrite (llm_create_no_documents _ _ _ _ _ _ Hd Hdocs) in Hrun. }
  destruct (objects w !! self ≫= config) as [cfg | ] eqn:Hcfg.
  - destruct (decide ((chunk_overlap cfg ≤ chunk_size cfg)%Z
                      ∧ split_documents (chunk_size cfg) (chunk_overlap cfg)
                          (load_files (normpath root)) ≠ []))
      as [[Hsize Htexts] | Hbad].
    + rewrite (llm_create_build _ _ _ _ _ _ _ Hd Hcfg Hdocs Hsize Htexts) in Hrun.
      simplify_eq. simpl. by rewrite lookup_insert_eq.
    + destruct (llm_create_build_fails _ emb index _ force _ _ Hd Hcfg Hdocs Hbad)
        as (exn & w1 & Hfail).
      by rewrite Hrun in Hfail.
  - pose proof (llm_create_no_config _ emb index _ _ _ Hd Hdocs Hcfg) as Hfail.
    by rewrite Hrun in Hfail.
Qed.

Lemma LLM_create_reuse self emb index root w entries :
  disk w !! index_path_of root index = Some entries →
  let db := fresh (dom (stores w)) in
  LLM._create_vector_store self emb index root w =
    (Returned db,
     mkWorld (<[db := mkFaiss (Some emb) entries]> (stores w)) (objects w) (disk w)
             (trace w ++ [LoadLocal (index_path_of root index);
                          Stdout (store_str db +:+ nl)])).
Proof.
  intros Hd db. unfold LLM._create_vector_store, index_path_of in *.
  step_with ltac:(apply get_local_found, Hd).
  unfold print. step_log. unfold mret, M_ret.
  by rewrite <- app_assoc.
Qed.

Lemma LLM_create_build self emb index root w cfg :
  disk w !! index_path_of root index = None →
  objects w !! self ≫= config = Some cfg →
  load_files (normpath root) ≠ [] →
  (chunk_overlap cfg ≤ chunk_size cfg)%Z →
  split_documents (chunk_size cfg) (chunk_overlap cfg) (load_files (normpath root)) ≠ [] →
  let docs := load_files (normpath root) in
  let texts := split_documents (chunk_size cfg) (chunk_overlap cfg) docs in
  let db := fresh (dom (stores w)) in
  LLM._create_vector_store self emb index root w =
    (Returned db,
     mkWorld (<[db := mkFaiss (Some emb) (texts ++ texts)]> (stores w))
             (objects w)
             (<[index_path_of root index := texts ++ texts]> (disk w))
             (trace w
              ++ [LoadLocal (index_path_of root index); LoadFiles (normpath root)]
              ++ build_events emb cfg (index_path_of root index) docs
                   ((if bool_decide (index = MODEL_TYPES_OPENAI)
                     then [Stdout (cost_str docs (model_name cfg) +:+ nl)]
                     else [])
                    ++ [HaloStart ("Creating vector store for "
                                   +:+ pretty (length docs) +:+ " documents")])
              ++ [HaloSucceed ("Created vector store for "
                               +:+ pretty (length docs) +:+ " documents")])).
Proof.
  intros Hd Hcfg Hdocs Hsize Htexts docs texts db.
  unfold LLM._create_vector_store, build_events, index_path_of in *.
  step_with ltac:(apply get_local_missing; auto).
  step_log. rewrite bool_decide_nonempty by done.
  step_with ltac:(apply getattr_run, Hcfg).
  step_with ltac:(by apply splitter_run).
  step_with ltac:(apply split_documents_run).
  step_with ltac:(apply log_if_run).
  step_log.
  step_with ltac:(by apply from_documents_run).
  step_with ltac:(apply add_documents_run, lookup_insert_eq).
  step_with ltac:(apply save_local_run, lookup_insert_eq).
  step_log.
  unfold mret, M_ret. rewrite insert_insert_eq.
  rewrite <- !app_assoc. simpl. done.
Qed.

Lemma LLM_create_no_documents self emb index root w :
  disk w !! index_path_of root index = None →
  load_files (normpath root) = [] →
  LLM._create_vector_store self emb index root w =
    (Exited 0,
     extend w [LoadLocal (index_path_of root index); LoadFiles (normpath root);
               Stdout ("✘ No documents found" +:+ nl)]).
Proof.
  intros Hd Hdocs. unfold LLM._create_vector_store, index_path_of, extend in *.
  step_with ltac:(apply get_local_missing; auto).
  step_log. rewrite bool_decide_empty by done.
  unfold print. step_log. unfold exit.
  rewrite <- !app_assoc. simpl. done.
Qed.

Lemma LLM_create_no_config self emb index root w :
  disk w !! index_path_of root index = None →
  load_files (normpath root) ≠ [] →
  objects w !! self ≫= config = None →
  fst (LLM._create_vector_store self emb index root w) = Raised "AttributeError".
Proof.
  intros Hd Hdocs Hcfg. unfold LLM._create_vector_store, index_path_of in *.
  step_with ltac:(apply get_local_missing; auto).
  step_log. rewrite bool_decide_nonempty by done.
  erewrite bind_raised; [done | ]. by apply getattr_missing.
Qed.

Lemma LLM_create_bad_overlap self emb index root w cfg :
  disk w !! index_path_of root index = None →
  objects w !! self ≫= config = Some cfg →
  load_files (normpath root) ≠ [] →
  (chunk_size cfg < chunk_overlap cfg)%Z →
  LLM._create_vector_store self emb index root w =
    (Raised "ValueError",
     extend w [LoadLocal (index_path_of root index); LoadFiles (normpath root)]).
Proof.
  intros Hd Hcfg Hdocs Hsize.
  unfold LLM._create_vector_store, index_path_of, extend in *.
  step_with ltac:(apply get_local_missing; auto).
  step_log. rewrite bool_decide_nonempty by done.
  step_with ltac:(apply getattr_run, Hcfg).
  erewrite bind_raised; [ | by apply splitter_rejects ].
  rewrite <- !app_assoc. simpl. done.
Qed.

Lemma LLM_create_no_chunks self emb index root w cfg :
  disk w !! index_path_of root index = None →
  objects w !! self ≫= config = Some cfg →
  load_files (normpath root) ≠ [] →
  (chunk_overlap cfg ≤ chunk_size cfg)%Z →
  split_documents (chunk_size cfg) (chunk_overlap cfg) (load_files (normpath root)) = [] →
  let docs := load_files (normpath root) in
  LLM._create_vector_store self emb index root w =
    (Raised "IndexError",
     extend w ([LoadLocal (index_path_of root index); LoadFiles (normpath root);
                Split (chunk_size cfg) (chunk_overlap cfg) docs]
               ++ (if bool_decide (index = MODEL_TYPES_OPENAI)
                   then [Stdout (cost_str docs (model_name cfg) +:+ nl)]
                   else [])
               ++ [HaloStart ("Creating vector store for "
                              +:+ pretty (length docs) +:+ " documents");
                   Embed (Some emb) []])).
Proof.
  intros Hd Hcfg Hdocs Hsize Htexts docs.
  unfold LLM._create_vector_store, index_path_of, extend in *.
  step_with ltac:(apply get_local_missing; auto).
  step_log. rewrite bool_decide_nonempty by done.
  step_with ltac:(apply getattr_run, Hcfg).
  step_with ltac:(by apply splitter_run).
  step_with ltac:(apply split_documents_run).
  step_with ltac:(apply log_if_run).
  step_log. rewrite Htexts.
  erewrite bind_raised; [ | apply from_documents_empty ].
  cbn [stores objects disk trace].
  rewrite <- !app_assoc. simpl. done.
Qed.

Lemma LLM_create_build_fails self emb index root w cfg :
  disk w !! index_path_of root index = None →
  objects w !! self ≫= config = Some cfg →
  load_files (normpath root) ≠ [] →
  ¬ ((chunk_overlap cfg ≤ chunk_size cfg)%Z
     ∧ split_documents (chunk_size cfg) (chunk_overlap cfg) (load_files (normpath root))
       ≠ []) →
  ∃ exn w', LLM._create_vector_store self emb index root w = (Raised exn, w').
Proof.
  intros Hd Hcfg Hdocs Hbad.
  destruct (decide (chunk_overlap cfg ≤ chunk_size cfg)%Z) as [Hsize | Hsize].
  - destruct (decide (split_documents (chunk_size cfg) (chunk_overlap cfg)
                        (load_files (normpath root)) = [])) as [Htexts | Htexts].
    + eexists _, _. by apply LLM_create_no_chunks.
    + by destruct Hbad.
  - eexists _, _. eapply LLM_create_bad_overlap; [done | exact Hcfg | done | lia].
Qed.

Lemma LLM_create_returns_persisted self emb index root w db w' :
  LLM._create_vector_store self emb index root w = (Returned db, w') →
  is_Some (disk w' !! index_path_of root index).
Proof.
  intros Hrun.
  destruct (disk w !! index_path_of root index) as [entries | ] eqn:Hd.
  { rewrite (LLM_create_reuse _ _ _ _ _ _ Hd) in Hrun. simplify_eq. simpl. eauto. }
  destruct (decide (load_files (normpath root) = [])) as [Hdocs | Hdocs].
  { by rewrite (LLM_create_no_documents _ _ _ _ _ Hd Hdocs) in Hrun. }
  destruct (objects w !! self ≫= config) as [cfg | ] eqn:Hcfg.
  - destruct (decide ((chunk_overlap cfg ≤ chunk_size cfg)%Z
                      ∧ split_documents (chunk_size cfg) (chunk_overlap cfg)
                          (load_files (normpath root)) ≠ []))
      as [[Hsize Htexts] | Hbad].
    + rewrite (LLM_create_build _ _ _ _ _ _ Hd Hcfg Hdocs Hsize Htexts) in Hrun.
      simplify_eq. simpl. by rewrite lookup_insert_eq.
    + destruct (LLM_create_build_fails _ emb index _ _ _ Hd Hcfg Hdocs Hbad)
        as (exn & w1 & Hfail).
      by rewrite Hrun in Hfail.
  - pose proof (LLM_create_no_config _ emb index _ _ Hd Hdocs Hcfg) as Hfail.
    by rewrite Hrun in Hfail.
Qed.
End Create.

(** ** [_update_vector_store] *)

Section Update.
Context `{Collaborators}.

(** The method stops at its first call, in every world and for every
    argument: [load_local] is refused for the missing [embeddings]. *)
Lemma update_run self paths emb index root w :
  LLM._update_vector_store self paths emb index root w = (Raised "TypeError", w).
Proof.
  unfold LLM._update_vector_store.
  erewrite bind_raised; [done | ]. apply load_local_without_embeddings.
Qed.

(** The loop over no path returns; over any other list it stops in its
    first iteration, at the unbound name [load_file]. *)
Lemma update_each_nil db text_splitter w :
  LLM.update_each db text_splitter [] w = (Returned (), w).
Proof. done. Qed.

Lemma update_each_cons db text_splitter path rest w :
  LLM.update_each db text_splitter (path :: rest) w = (Raised "NameError", w).
Proof. done. Qed.

Lemma remove_documents_where_run db pred w :
  remove_documents_where db pred w = (Raised "AttributeError", w).
Proof. done. Qed.
End Update.

Section Query.
Context `{Collaborators}.

Lemma ready_attrs w self c cfg m vs s :
  ready w self c cfg m vs s →
  objects w !! self ≫= (λ o, Some (cls o)) = Some c
  ∧ objects w !! self ≫= config = Some cfg
  ∧ objects w !! self ≫= llm_attr = Some m
  ∧ objects w !! self ≫= vector_store = Some vs
  ∧ stores w !! vs = Some s.
Proof. intros [[root Ho] Hs]. rewrite Ho. done. Qed.

Lemma extend_extend w t1 t2 : extend (extend w t1) t2 = extend w (t1 ++ t2).
Proof. unfold extend. simpl. by rewrite app_assoc. Qed.

(** [LocalLLM.send_query] on an initialised instance. *)
Lemma LocalLLM_send_query_run w self c cfg m vs s query :
  ready w self c cfg m vs s →
  llm.LocalLLM_send_query self query w =
    match similarity (docstore s) query (k cfg) with
    | Returned docs =>
        (Returned (),
         extend w [Search query (k cfg);
                   Complete m (PromptText
                     (llm.LocalLLM_template query (content_block docs)));
                   Stderr (path_lines (file_paths docs))])
    | Exited code => (Exited code, extend w [Search query (k cfg)])
    | Raised exn => (Raised exn, extend w [Search query (k cfg)])
    end.
Proof.
  intros (Hc & Hcfg & Hm & Hvs & Hs)%ready_attrs.
  unfold llm.LocalLLM_send_query, llm.embedding_search.
  step_with ltac:(apply getattr_run, Hcfg).
  assert (Hsearch : (getattr self vector_store ≫= λ vs, search vs query (k cfg)) w
                    = (similarity (docstore s) query (k cfg),
                       extend w [Search query (k cfg)])).
  { step_with ltac:(apply getattr_run, Hvs). by apply search_run. }
  destruct (similarity (docstore s) query (k cfg)) as [docs|code|exn].
  - step_with ltac:(apply Hsearch).
    step_with ltac:(apply getattr_run, Hm).
    step_log. unfold stderr_write. rewrite log_run. unfold extend. simpl.
    by rewrite <- !app_assoc.
  - by erewrite bind_exited.
  - by erewrite bind_raised.
Qed.

(** [OpenAILLM.send_query] on an initialised instance. *)
Lemma OpenAILLM_send_query_run w self c cfg m vs s query :
  ready w self c cfg m vs s →
  llm.OpenAILLM_send_query self query w =
    match similarity (docstore s) query (k cfg) with
    | Returned docs =>
        let prompt := llm.OpenAILLM_template (content_block docs) in
        (Returned (),
         extend w [Search query (k cfg);
                   Complete m (PromptMessages [SystemMessage prompt; HumanMessage query]);
                   Stderr ("AI prompt:" +:+ nl +:+ prompt);
                   Stderr ("User query:" +:+ nl +:+ query);
                   Stderr ("Relevant files:" +:+ nl +:+ list_str (file_paths docs))])
    | Exited code => (Exited code, extend w [Search query (k cfg)])
    | Raised exn => (Raised exn, extend w [Search query (k cfg)])
    end.
Proof.
  intros (Hc & Hcfg & Hm & Hvs & Hs)%ready_attrs.
  unfold llm.OpenAILLM_send_query, llm.embedding_search.
  step_with ltac:(apply getattr_run, Hcfg).
  assert (Hsearch : (getattr self vector_store ≫= λ vs, search vs query (k cfg)) w
                    = (similarity (docstore s) query (k cfg),
                       extend w [Search query (k cfg)])).
  { step_with ltac:(apply getattr_run, Hvs). by apply search_run. }
  destruct (similarity (docstore s) query (k cfg)) as [docs|code|exn].
  - step_with ltac:(apply Hsearch).
    step_with ltac:(apply getattr_run, Hm).
    step_log. unfold stderr_write. do 2 step_log.
    rewrite log_run. unfold extend. simpl.
    by rewrite <- !app_assoc.
  - by erewrite bind_exited.
  - by erewrite bind_raised.
Qed.

(** [BaseLLM.send_query] of [LLM.py] on an initialised instance. *)
Lemma LLM_send_query_run w self c cfg m vs s question :
  ready w self c cfg m vs s →
  LLM.send_query self question w =
    match similarity (docstore s) question (k cfg) with
    | Returned docs =>
        (Returned (),
         extend w [Search question (k cfg);
                   Complete m (PromptText (stuff_prompt docs question));
                   Stdout (nl +:+ str_join nl
                             (map (λ d, "📄 " +:+ abspath (source (metadata d)) +:+ ":")
                                  docs) +:+ nl)])
    | Exited code => (Exited code, extend w [Search question (k cfg)])
    | Raised exn => (Raised exn, extend w [Search question (k cfg)])
    end.
Proof.
  intros (Hc & Hcfg & Hm & Hvs & Hs)%ready_attrs.
  unfold LLM.send_query, LLM.RetrievalQA.
  step_with ltac:(apply getattr_run, Hcfg).
  step_with ltac:(apply getattr_run, Hm).
  step_with ltac:(apply getattr_run, Hvs).
  pose proof (search_run vs question (k cfg) w s Hs) as Hsearch.
  destruct (similarity (docstore s) question (k cfg)) as [docs|code|exn].
  - step_with ltac:(step_with ltac:(apply Hsearch); step_log; reflexivity).
    unfold print. rewrite log_run. unfold extend. simpl.
    by rewrite <- !app_assoc.
  - erewrite bind_exited; [done | ]. by erewrite bind_exited.
  - erewrite bind_raised; [done | ]. by erewrite bind_raised.
Qed.

(** The dispatch of [llm.py]'s [send_query] on the instance's class. *)
Lemma llm_send_query_dispatch w self c cfg m vs s query :
  ready w self c cfg m vs s →
  llm.send_query self query w =
    match c with
    | LocalLLM => llm.LocalLLM_send_query self query w
    | OpenAILLM => llm.OpenAILLM_send_query self query w
    end.
Proof.
  intros (Hc & _)%ready_attrs. unfold llm.send_query.
  step_with ltac:(apply getattr_run, Hc). by destruct c.
Qed.
End Query.

(** ** [__init__] and the instance's store *)

Lemma bind_returned_inv {A B} (m : M A) (f : A → M B) w b w' :
  (m ≫= f) w = (Returned b, w') →
  ∃ a w1, m w = (Returned a, w1) ∧ f a w1 = (Returned b, w').
Proof.
  unfold mbind, M_bind. destruct (m w) as [[a | code | exn] w1]; [eauto | done | done].
Qed.

Lemma setattr_returned_inv self f w w' :
  setattr self f w = (Returned (), w') →
  ∃ o, objects w !! self = Some o ∧ w' = set_objects <[self := f o]> w.
Proof.
  unfold setattr. destruct (objects w !! self) as [o | ]; [ | done].
  intros [= <-]. eauto.
Qed.

Section Init.
Context `{Collaborators}.

(** [BaseLLM.__init__] assigns [self.vector_store] the object that
    [_create_store] returned; it is the last thing it does. *)
Lemma LLM_init_assigns_vector_store self root cfg w w' :
  LLM.__init__ self root cfg w = (Returned (), w') →
  ∃ w1 w2 vs,
    LLM._create_store self root w1 = (Returned vs, w2)
    ∧ objects w' !! self ≫= vector_store = Some vs
    ∧ stores w' = stores w2.
Proof.
  unfold LLM.__init__. intros Hrun.
  apply bind_returned_inv in Hrun as ([] & ? & _ & Hrun).
  apply bind_returned_inv in Hrun as (? & ? & _ & Hrun).
  apply bind_returned_inv in Hrun as ([] & ? & _ & Hrun).
  apply bind_returned_inv in Hrun as ([] & w1 & _ & Hrun).
  apply bind_returned_inv in Hrun as (vs & w2 & Hstore & Hrun).
  apply setattr_returned_inv in Hrun as (o & Ho & ->).
  exists w1, w2, vs. split; [done | ]. simpl. by rewrite lookup_insert_eq.
Qed.
End Init.

(** ** The claims *)

Section Create_claims.
Context `{Collaborators}.

(** C1: when an index is persisted at the index path, and so in every
    world that an earlier [_create_vector_store] for the same [root_dir]
    and [index] returned in, the call without [force_recreate] returns a
    new object holding exactly the persisted entries.  It leaves the disk
    as it is and does nothing but read the index and print a message: it
    loads no documents, splits nothing and embeds nothing. *)
Theorem create_reuses_persisted_store self emb index root w :
  is_Some (disk w !! index_path_of root index)
  ∨ (∃ self0 emb0 force w0 db0,
       llm._create_vector_store self0 emb0 index root force w0 = (Returned db0, w))
  ∨ (∃ self0 emb0 w0 db0,
       LLM._create_vector_store self0 emb0 index root w0 = (Returned db0, w)) →
  ∃ entries,
    disk w !! index_path_of root index = Some entries
    ∧ ∀ run, run = llm._create_vector_store self emb index root false w
             ∨ run = LLM._create_vector_store self emb index root w →
        ∃ t, run = (Returned (fresh (dom (stores w))),
                    mkWorld (<[fresh (dom (stores w)) := mkFaiss (Some emb) entries]>
                               (stores w))
                            (objects w) (disk w) (trace w ++ t))
             ∧ count_events is_load t = 0
             ∧ count_events is_split t = 0
             ∧ count_events is_embed t = 0
             ∧ count_events is_save t = 0.
Proof.
  intros Hpersisted.
  assert (is_Some (disk w !! index_path_of root index)) as [entries Hd].
  { destruct Hpersisted as [? | [(? & ? & ? & ? & ? & Hrun) | (? & ? & ? & ? & Hrun)]].
    - done.
    - by eapply llm_create_returns_persisted.
    - by eapply LLM_create_returns_persisted. }
  exists entries. split; [done | ]. intros run [-> | ->].
  - rewrite (llm_create_reuse _ _ _ _ _ _ Hd). by eexists [_; _].
  - rewrite (LLM_create_reuse _ _ _ _ _ _ Hd). by eexists [_; _].
Qed.

(** C3: with nothing persisted at the index path and no document under
    the root, [_create_vector_store] reports "No documents found" and ends
    the process with [exit(0)]: it returns no store, and neither the stores
    in memory nor the disk change. *)
Theorem create_without_documents_exits self emb index root force w :
  disk w !! index_path_of root index = None →
  load_files (normpath root) = [] →
  llm._create_vector_store self emb index root force w
  = (Exited 0,
     extend w ((if force then [] else [LoadLocal (index_path_of root index)])
               ++ [LoadFiles (normpath root); Stderr "✘ No documents found"]))
  ∧ LLM._create_vector_store self emb index root w
    = (Exited 0,
       extend w [LoadLocal (index_path_of root index); LoadFiles (normpath root);
                 Stdout ("✘ No documents found" +:+ nl)]).
Proof.
  intros Hd Hdocs. split.
  - by apply llm_create_no_documents.
  - by apply LLM_create_no_documents.
Qed.

(** C9: a store built from a non-empty document set holds the chunk list
    twice over.  When the splitter accepts the configuration and the
    documents split into at least one chunk, [from_documents] stores the
    chunks and [add_documents] appends the same chunks again, so the chunk
    at position [i] is also at position [length texts + i], every chunk
    occurs twice as often as it was produced, the provider embeds the list
    twice, and that doubled list is what is persisted.  Otherwise no store
    is built: the splitter raises for an overlap larger than the chunk
    size, and [from_documents] raises for an empty chunk list; in both
    cases the stores and the disk are as before. *)
Theorem created_store_holds_each_chunk_twice self emb index root force w cfg :
  disk w !! index_path_of root index = None →
  objects w !! self ≫= config = Some cfg →
  load_files (normpath root) ≠ [] →
  let texts := split_documents (chunk_size cfg) (chunk_overlap cfg)
                 (load_files (normpath root)) in
  ∀ run, run = llm._create_vector_store self emb index root force w
         ∨ run = LLM._create_vector_store self emb index root w →
    ((chunk_overlap cfg ≤ chunk_size cfg)%Z → texts ≠ [] →
     ∃ db w' t stored,
       run = (Returned db, w')
       ∧ stores w' !! db = Some (mkFaiss (Some emb) stored)
       ∧ disk w' !! index_path_of root index = Some stored
       ∧ stored = texts ++ texts
       ∧ (∀ i c, texts !! i = Some c →
            stored !! i = Some c ∧ stored !! (length texts + i) = Some c)
       ∧ (∀ c, length (filter (λ d, d = c) stored)
               = 2 * length (filter (λ d, d = c) texts))
       ∧ trace w' = trace w ++ t
       ∧ List.filter is_embed t = [Embed (Some emb) texts; Embed (Some emb) texts])
    ∧ ((chunk_size cfg < chunk_overlap cfg)%Z →
       fst run = Raised "ValueError"
       ∧ stores (snd run) = stores w ∧ disk (snd run) = disk w
       ∧ count_events is_embed (trace (snd run)) = count_events is_embed (trace w))
    ∧ ((chunk_overlap cfg ≤ chunk_size cfg)%Z → texts = [] →
       fst run = Raised "IndexError"
       ∧ stores (snd run) = stores w ∧ disk (snd run) = disk w).
Proof.
  intros Hd Hcfg Hdocs texts run Hrun. split; [ | split].
  - intros Hsize Htexts.
    assert (∃ t, run = (Returned (fresh (dom (stores w))),
                        mkWorld (<[fresh (dom (stores w))
                                   := mkFaiss (Some emb) (texts ++ texts)]> (stores w))
                                (objects w)
                                (<[index_path_of root index := texts ++ texts]> (disk w))
                                (trace w ++ t))
                 ∧ List.filter is_embed t
                   = [Embed (Some emb) texts; Embed (Some emb) texts])
      as (t & -> & Ht).
    { destruct Hrun as [-> | ->].
      - rewrite (llm_create_build _ _ _ _ _ _ _ (λ _, Hd) Hcfg Hdocs Hsize Htexts).
        eexists. split; [reflexivity | ].
        unfold build_events. by destruct force, (bool_decide _).
      - rewrite (LLM_create_build _ _ _ _ _ _ Hd Hcfg Hdocs Hsize Htexts).
        eexists. split; [reflexivity | ].
        unfold build_events. by destruct (bool_decide _). }
    eexists _, _, t, (texts ++ texts). repeat split; simpl; try done.
    + by rewrite lookup_insert_eq.
    + by rewrite lookup_insert_eq.
    + by apply lookup_app_l_Some.
    + by rewrite lookup_app_r, Nat.add_comm, Nat.add_sub by lia.
    + intros c. rewrite filter_app, length_app. lia.
  - intros Hsize. destruct Hrun as [-> | ->].
    + rewrite (llm_create_bad_overlap _ _ _ _ _ _ _ (λ _, Hd) Hcfg Hdocs Hsize).
      repeat split. simpl. rewrite count_events_app.
      by destruct force.
    + rewrite (LLM_create_bad_overlap _ _ _ _ _ _ Hd Hcfg Hdocs Hsize).
      repeat split. simpl. by rewrite count_events_app.
  - intros Hsize Htexts. destruct Hrun as [-> | ->].
    + by rewrite (llm_create_no_chunks _ _ _ _ _ _ _ (λ _, Hd) Hcfg Hdocs Hsize Htexts).
    + by rewrite (LLM_create_no_chunks _ _ _ _ _ _ Hd Hcfg Hdocs Hsize Htexts).
Qed.
End Create_claims.

Section Update_claims.
Context `{Collaborators}.

(** C2: the eviction is never reached.  With an index persisted at the
    index path, [_update_vector_store] raises [TypeError] at its first
    call, for every list of paths, and changes nothing: the entries
    persisted for a listed path are the ones from before the update, stale
    or not.  The steps of an iteration cannot run either: on every store
    the loop raises [NameError] at [load_file] for its first path, and
    [remove_documents_where] raises [AttributeError]. *)
Theorem update_raises_before_eviction self paths emb index root w entries :
  disk w !! index_path_of root index = Some entries →
  LLM._update_vector_store self paths emb index root w = (Raised "TypeError", w)
  ∧ (∀ p, filter (λ c, source (metadata c) = p) <$>
            disk (snd (LLM._update_vector_store self paths emb index root w))
              !! index_path_of root index
          = Some (filter (λ c, source (metadata c) = p) entries))
  ∧ (∀ db text_splitter path rest w0,
       LLM.update_each db text_splitter (path :: rest) w0 = (Raised "NameError", w0))
  ∧ (∀ db pred w0,
       remove_documents_where db pred w0 = (Raised "AttributeError", w0)).
Proof.
  intros Hd. rewrite update_run. split; [done | ].
  split; [intros p; simpl; by rewrite Hd | ].
  split; [intros; apply update_each_cons | intros; apply remove_documents_where_run].
Qed.

(** C4: with nothing persisted at the index path, [_update_vector_store]
    does not report a missing store.  It raises [TypeError] at
    [load_local], as it does when an index is persisted: nothing is
    printed, the process is not ended with [exit], and nothing is created.
    The test [db is None] that guards the report can never hold, since
    [load_local] returns a store or raises, with or without
    [embeddings]. *)
Theorem update_without_store_raises self paths emb index root w :
  disk w !! index_path_of root index = None →
  LLM._update_vector_store self paths emb index root w = (Raised "TypeError", w)
  ∧ (∀ code, fst (LLM._update_vector_store self paths emb index root w) ≠ Exited code)
  ∧ (Stdout ("✘ No existing vector store found" +:+ nl)
     ∉ drop (length (trace w))
         (trace (snd (LLM._update_vector_store self paths emb index root w))))
  ∧ (∀ w0, LLM._update_vector_store self paths emb index root w0
           = (Raised "TypeError", w0))
  ∧ (∀ embeddings w0,
       fst (load_local (index_path_of root index) embeddings w0) ≠ Returned None).
Proof.
  intros Hd. rewrite update_run. split; [done | ].
  split; [done | ]. split.
  { simpl. rewrite drop_all. apply not_elem_of_nil. }
  split; [intros; apply update_run | intros; apply load_local_not_none].
Qed.

(** C5: the loop is never reached, so no path is skipped and nothing is
    persisted.  With an index persisted and the configuration assigned,
    [_update_vector_store] raises [TypeError] for every list of paths: the
    disk is as before and no [save_local] happens.  Had the loop been
    reached, it would not get past its first path either: on every store
    it raises [NameError] there, prints nothing about a skipped path and
    does not continue with the rest of the list. *)
Theorem update_saves_nothing self paths emb index root w entries cfg :
  disk w !! index_path_of root index = Some entries →
  objects w !! self ≫= config = Some cfg →
  LLM._update_vector_store self paths emb index root w = (Raised "TypeError", w)
  ∧ disk (snd (LLM._update_vector_store self paths emb index root w)) = disk w
  ∧ count_events is_save
      (drop (length (trace w))
         (trace (snd (LLM._update_vector_store self paths emb index root w)))) = 0
  ∧ (∀ db text_splitter updated_file_paths w0,
       updated_file_paths ≠ [] →
       LLM.update_each db text_splitter updated_file_paths w0
       = (Raised "NameError", w0)).
Proof.
  intros Hd Hcfg. rewrite update_run. split; [done | ]. split; [done | ].
  split; [simpl; by rewrite drop_all | ].
  intros db text_splitter [ | path rest] w0 Hpaths; [done | ].
  apply update_each_cons.
Qed.

End Update_claims.

Section Query_claims.
Context `{Collaborators}.

(** C6, as amended: on an initialised instance whose search returns
    [docs], each [send_query] reports the absolute source path of every
    retrieved chunk, one entry per chunk in retrieval order; a path
    retrieved twice is reported twice. *)
Theorem provenance_lists_every_retrieved_chunk w self c cfg m vs s query docs :
  ready w self c cfg m vs s →
  similarity (docstore s) query (k cfg) = Returned docs →
  let paths := map (λ d, abspath (source (metadata d))) docs in
  length paths = length docs
  ∧ (∀ i d, docs !! i = Some d → paths !! i = Some (abspath (source (metadata d))))
  ∧ (c = LocalLLM →
     ∃ t, llm.send_query self query w
          = (Returned (), extend w (t ++ [Stderr (path_lines paths)])))
  ∧ (c = OpenAILLM →
     ∃ t, llm.send_query self query w
          = (Returned (),
             extend w (t ++ [Stderr ("Relevant files:" +:+ nl +:+ list_str paths)])))
  ∧ (∃ t, LLM.send_query self query w
          = (Returned (),
             extend w (t ++ [Stdout (nl +:+ str_join nl
                                       (map (λ p, "📄 " +:+ p +:+ ":") paths) +:+ nl)]))).
Proof.
  intros Hready Hsim paths. repeat split.
  - apply length_map.
  - intros i d Hi. unfold paths. by rewrite list_lookup_fmap, Hi.
  - intros ->. rewrite (llm_send_query_dispatch _ _ _ _ _ _ _ _ Hready).
    rewrite (LocalLLM_send_query_run _ _ _ _ _ _ _ _ Hready), Hsim.
    by eexists [_; _].
  - intros ->. rewrite (llm_send_query_dispatch _ _ _ _ _ _ _ _ Hready).
    rewrite (OpenAILLM_send_query_run _ _ _ _ _ _ _ _ Hready), Hsim.
    by eexists [_; _; _; _].
  - rewrite (LLM_send_query_run _ _ _ _ _ _ _ _ Hready), Hsim.
    eexists [_; _]. unfold paths. by rewrite map_map.
Qed.


(** C8: when the search returns no chunk, [send_query] does not fail.
    It sends the language model the fixed template with an empty context
    block, the text of the template being the one of the source with
    nothing after it, and reports an empty list of paths. *)
Theorem empty_retrieval_still_prompts w self c cfg m vs s query :
  ready w self c cfg m vs s →
  similarity (docstore s) query (k cfg) = Returned [] →
  content_block [] = "" ∧ file_paths [] = []
  ∧ (c = LocalLLM →
     llm.send_query self query w
     = (Returned (),
        extend w [Search query (k cfg);
                  Complete m (PromptText
                    ("Given the following content, your task is to answer the question."
                     +:+ nl +:+ "Question: " +:+ query +:+ nl));
                  Stderr ""]))
  ∧ (c = OpenAILLM →
     llm.send_query self query w
     = (Returned (),
        extend w [Search query (k cfg);
                  Complete m (PromptMessages
                    [SystemMessage
                       ("Given the following snippets of related content, respond with the answer to the question. "
                        +:+ nl);
                     HumanMessage query]);
                  Stderr ("AI prompt:" +:+ nl
                          +:+ "Given the following snippets of related content, respond with the answer to the question. "
                          +:+ nl);
                  Stderr ("User query:" +:+ nl +:+ query);
                  Stderr ("Relevant files:" +:+ nl +:+ list_str [])]))
  ∧ LLM.send_query self query w
    = (Returned (),
       extend w [Search query (k cfg);
                 Complete m (PromptText (stuff_prompt [] query));
                 Stdout (nl +:+ "" +:+ nl)]).
Proof.
  intros Hready Hsim. repeat split.
  - intros ->. rewrite (llm_send_query_dispatch _ _ _ _ _ _ _ _ Hready).
    by rewrite (LocalLLM_send_query_run _ _ _ _ _ _ _ _ Hready), Hsim.
  - intros ->. rewrite (llm_send_query_dispatch _ _ _ _ _ _ _ _ Hready).
    by rewrite (OpenAILLM_send_query_run _ _ _ _ _ _ _ _ Hready), Hsim.
  - by rewrite (LLM_send_query_run _ _ _ _ _ _ _ _ Hready), Hsim.
Qed.
End Query_claims.

(** ** The claims on the concrete repository *)

Section Scenario_checks.
#[local] Existing Instance Scenario.collaborators.

Lemma serving_ready c top entries :
  ready (Scenario.serving c top entries) 0 c (Scenario.settings top)
        Scenario.local_model 0 (mkFaiss None entries).
Proof. split; [by exists "repo" | reflexivity]. Qed.

(** [factory_llm] of [LLM.py] on the repository returns an initialised
    instance whose store holds each chunk twice. *)
Lemma indexed_ready top :
  fst (Scenario.indexed_by_LLM top) = Returned 0
  ∧ ready (snd (Scenario.indexed_by_LLM top)) 0 LocalLLM (Scenario.settings top)
          Scenario.local_model 0
          (mkFaiss (Some Scenario.minilm)
             [Scenario.a_old; Scenario.b_old; Scenario.a_old; Scenario.b_old])
  ∧ disk (snd (Scenario.indexed_by_LLM top)) !! index_path_of "repo" "local"
    = Some [Scenario.a_old; Scenario.b_old; Scenario.a_old; Scenario.b_old].
Proof.
  split; [by vm_compute | ]. split; [ | by vm_compute].
  split; [exists "repo"; by vm_compute | by vm_compute].
Qed.

Lemma first_call_returns : Scenario.first_call = (Returned 1, snd Scenario.first_call).
Proof. by vm_compute. Qed.

Lemma create_reuses_persisted_store_witness :
  count_events is_embed (trace (snd Scenario.first_call)) = 2
  ∧ count_events is_embed
      (trace (snd (llm._create_vector_store 0 Scenario.minilm "local" "repo" false
                     (snd Scenario.first_call)))) = 2.
Proof.
  split; [reflexivity | ].
  destruct (create_reuses_persisted_store 0 Scenario.minilm "local" "repo"
              (snd Scenario.first_call)) as (entries & _ & Hrun).
  - right. left.
    exists 0, Scenario.minilm, false, (Scenario.serving LocalLLM 2 []), 1.
    exact first_call_returns.
  - destruct (Hrun _ (or_introl eq_refl)) as (t & -> & _ & _ & Hno & _).
    cbn [snd trace]. rewrite count_events_app, Hno. reflexivity.
Defined.

Lemma create_without_documents_exits_witness :
  disk (Scenario.serving LocalLLM 2 []) !! index_path_of "elsewhere" "local" = None
  ∧ load_files (normpath "elsewhere") = []
  ∧ fst (llm._create_vector_store 0 Scenario.minilm "local" "elsewhere" true
           (Scenario.serving LocalLLM 2 [])) = Exited 0
  ∧ fst (LLM._create_vector_store 0 Scenario.minilm "local" "elsewhere"
           (Scenario.serving LocalLLM 2 [])) = Exited 0.
Proof.
  split; [reflexivity | ]. split; [reflexivity | ].
  destruct (create_without_documents_exits 0 Scenario.minilm "local" "elsewhere" true
              (Scenario.serving LocalLLM 2 []) ltac:(reflexivity) ltac:(reflexivity))
  as [-> ->].
  split; reflexivity.
Defined.

Lemma created_store_holds_each_chunk_twice_witness :
  ∃ db w,
    LLM._create_vector_store 0 Scenario.minilm "local" "repo"
      (Scenario.serving LocalLLM 2 []) = (Returned db, w)
    ∧ disk w !! "repo/vector_store/local"
      = Some [Scenario.a_old; Scenario.b_old; Scenario.a_old; Scenario.b_old].
Proof.
  destruct (created_store_holds_each_chunk_twice 0 Scenario.minilm "local" "repo" false
              (Scenario.serving LocalLLM 2 []) (Scenario.settings 2)
              ltac:(reflexivity) ltac:(reflexivity) ltac:(discriminate)
              _ (or_intror eq_refl))
    as (Hbuild & _).
  destruct Hbuild as (db & w & t & stored & Hrun & _ & Hdisk & -> & _);
    [discriminate | discriminate | ].
  exists db, w. split; [exact Hrun | exact Hdisk].
Defined.

Lemma update_raises_before_eviction_witness :
  disk (snd (Scenario.indexed_by_LLM 2)) !! index_path_of "repo" "local"
  = Some [Scenario.a_old; Scenario.b_old; Scenario.a_old; Scenario.b_old]
  ∧ fst (LLM._update_vector_store 0 ["repo/a.py"] Scenario.minilm "local" "repo"
           (snd (Scenario.indexed_by_LLM 2))) = Raised "TypeError"
  ∧ filter (λ c, source (metadata c) = "repo/a.py") <$>
      disk (snd (LLM._update_vector_store 0 ["repo/a.py"] Scenario.minilm "local" "repo"
                   (snd (Scenario.indexed_by_LLM 2))))
        !! index_path_of "repo" "local"
    = Some [Scenario.a_old; Scenario.a_old].
Proof.
  destruct (indexed_ready 2) as (_ & _ & Hdisk).
  split; [exact Hdisk | ].
  destruct (update_raises_before_eviction 0 ["repo/a.py"] Scenario.minilm "local" "repo"
              (snd (Scenario.indexed_by_LLM 2)) _ Hdisk) as (Hrun & Hkept & _).
  split; [by rewrite Hrun | ].
  rewrite (Hkept "repo/a.py"). reflexivity.
Defined.

Lemma update_without_store_raises_witness :
  disk (Scenario.serving LocalLLM 2 [Scenario.a_old]) !! index_path_of "repo" "local" = None
  ∧ LLM._update_vector_store 0 ["repo/a.py"] Scenario.minilm "local" "repo"
      (Scenario.serving LocalLLM 2 [Scenario.a_old])
    = (Raised "TypeError", Scenario.serving LocalLLM 2 [Scenario.a_old]).
Proof.
  split; [reflexivity | ].
  exact (proj1 (update_without_store_raises 0 ["repo/a.py"] Scenario.minilm "local" "repo"
                  (Scenario.serving LocalLLM 2 [Scenario.a_old]) ltac:(reflexivity))).
Defined.

Lemma update_saves_nothing_witness :
  fst (LLM._update_vector_store 0 ["repo/gone.py"; "repo/a.py"] Scenario.minilm
         "local" "repo" (snd (Scenario.indexed_by_LLM 2))) = Raised "TypeError"
  ∧ count_events is_save
      (drop (length (trace (snd (Scenario.indexed_by_LLM 2))))
         (trace (snd (LLM._update_vector_store 0 ["repo/gone.py"; "repo/a.py"]
                        Scenario.minilm "local" "repo"
                        (snd (Scenario.indexed_by_LLM 2)))))) = 0.
Proof.
  destruct (indexed_ready 2) as (_ & Hready & Hdisk).
  pose proof Hready as (_ & Hcfg & _)%ready_attrs.
  destruct (update_saves_nothing 0 ["repo/gone.py"; "repo/a.py"] Scenario.minilm
              "local" "repo" (snd (Scenario.indexed_by_LLM 2)) _ (Scenario.settings 2)
              Hdisk Hcfg) as (Hrun & _ & Hsaves & _).
  split; [by rewrite Hrun | exact Hsaves].
Defined.


(** C6 fails as stated: after [factory_llm] has indexed the two files, a
    question with [k = 3] retrieves a chunk of [a.py], one of [b.py] and
    the second copy of the chunk of [a.py]; the report names [a.py] twice
    and differs from the report of the deduplicated list. *)
Lemma provenance_not_deduplicated :
  ∃ w w' reported,
    Scenario.indexed_by_llm 3 = (Returned 0, w)
    ∧ llm.send_query 0 "where is x set?" w = (Returned (), w')
    ∧ reported = ["/work/repo/a.py"; "/work/repo/b.py"; "/work/repo/a.py"]
    ∧ last (trace w') = Some (Stderr (path_lines reported))
    ∧ dedup_first reported = ["/work/repo/a.py"; "/work/repo/b.py"]
    ∧ last (trace w') ≠ Some (Stderr (path_lines (dedup_first reported))).
Proof.
  eexists _, _, _. split; [vm_compute; reflexivity | ].
  split; [vm_compute; reflexivity | ].
  split; [reflexivity | ].
  split; [vm_compute; reflexivity | ].
  split; [vm_compute; reflexivity | ].
  vm_compute. discriminate.
Qed.

Lemma provenance_lists_every_retrieved_chunk_witness :
  similarity [Scenario.a_old; Scenario.a_old] "where is x set?" 2
  = Returned [Scenario.a_old; Scenario.a_old]
  ∧ ∃ t, llm.send_query 0 "where is x set?"
           (Scenario.serving LocalLLM 2 [Scenario.a_old; Scenario.a_old])
         = (Returned (),
            extend (Scenario.serving LocalLLM 2 [Scenario.a_old; Scenario.a_old])
                   (t ++ [Stderr (path_lines ["/work/repo/a.py"; "/work/repo/a.py"])])).
Proof.
  split; [reflexivity | ].
  exact (proj1 (proj2 (proj2
    (provenance_lists_every_retrieved_chunk
       (Scenario.serving LocalLLM 2 [Scenario.a_old; Scenario.a_old])
       0 LocalLLM (Scenario.settings 2) Scenario.local_model 0
       (mkFaiss None [Scenario.a_old; Scenario.a_old])
       "where is x set?" [Scenario.a_old; Scenario.a_old]
       (serving_ready _ _ _) eq_refl))) eq_refl).
Defined.



Lemma empty_retrieval_still_prompts_witness :
  similarity [] "where is x set?" 3 = Returned []
  ∧ llm.send_query 0 "where is x set?" (Scenario.serving LocalLLM 3 [])
    = (Returned (),
       extend (Scenario.serving LocalLLM 3 [])
         [Search "where is x set?" 3;
          Complete Scenario.local_model
            (PromptText
               ("Given the following content, your task is to answer the question."
                +:+ nl +:+ "Question: where is x set?" +:+ nl));
          Stderr ""]).
Proof.
  split; [reflexivity | ].
  exact (proj1 (proj2 (proj2
    (empty_retrieval_still_prompts
       (Scenario.serving LocalLLM 3 []) 0 LocalLLM (Scenario.settings 3)
       Scenario.local_model 0 (mkFaiss None []) "where is x set?"
       (serving_ready _ _ _) eq_refl))) eq_refl).
Defined.
End Scenario_checks.

(** ** Construction: [factory_llm] and [__init__] *)

Lemma bind_assoc {A B C} (m : M A) (f : A → M B) (g : B → M C) w :
  ((m ≫= f) ≫= g) w = (m ≫= λ a, f a ≫= g) w.
Proof. unfold mbind, M_bind. by destruct (m w) as [[a | code | exn] w1]. Qed.

Lemma setattr_run self f w o :
  objects w !! self = Some o →
  setattr self f w
  = (Returned (), mkWorld (stores w) (<[self := f o]> (objects w)) (disk w) (trace w)).
Proof. unfold setattr. by intros ->. Qed.

Lemma bind_head_eq {A B} (m m' : M A) (f : A → M B) w w' :
  m w = m' w' → (m ≫= f) w = (m' ≫= f) w'.
Proof. unfold mbind, M_bind. by intros ->. Qed.

Lemma fresh_object_unused (w : World) : objects w !! fresh (dom (objects w)) = None.
Proof. apply not_elem_of_dom, is_fresh. Qed.

Section Construction.
Context `{Collaborators}.

Lemma LLM_create_model_run self w o cfg :
  objects w !! self = Some o → config o = Some cfg →
  LLM._create_model self w = (Returned (model_of (cls o) cfg), w).
Proof.
  intros Ho Hcfg. unfold LLM._create_model.
  step_with ltac:(apply getattr_run; by rewrite Ho).
  step_with ltac:(apply getattr_run; by rewrite Ho).
  by destruct (cls o).
Qed.

Lemma LLM_create_store_eq self root w o cfg :
  objects w !! self = Some o → config o = Some cfg →
  LLM._create_store self root w
  = LLM._create_vector_store self (embeddings_of (cls o) cfg) (index_of (cls o)) root w.
Proof.
  intros Ho Hcfg. unfold LLM._create_store.
  step_with ltac:(apply getattr_run; by rewrite Ho).
  destruct (cls o); [done | ]. unfold LLM.OpenAILLM_create_store.
  by step_with ltac:(apply getattr_run; by rewrite Ho).
Qed.

Lemma LLM_init_run self root cfg w o :
  objects w !! self = Some o →
  LLM.__init__ self root cfg w
  = (LLM._create_vector_store self (embeddings_of (cls o) cfg) (index_of (cls o)) root
     ≫= λ vs, setattr self (set_vector_store vs))
      (mkWorld (stores w)
               (<[self := mkInstance (cls o) (Some cfg) (Some (model_of (cls o) cfg))
                                     (Some root) (vector_store o)]> (objects w))
               (disk w) (trace w)).
Proof.
  intros Ho. unfold LLM.__init__.
  step_with ltac:(by apply setattr_run).
  step_with ltac:(by eapply LLM_create_model_run; [apply lookup_insert_eq | ]).
  step_with ltac:(apply setattr_run, lookup_insert_eq).
  step_with ltac:(apply setattr_run, lookup_insert_eq).
  rewrite !insert_insert_eq. simpl.
  apply bind_head_eq.
  by apply (LLM_create_store_eq _ _ _
              (mkInstance (cls o) (Some cfg) (Some (model_of (cls o) cfg)) (Some root)
                          (vector_store o)) cfg);
    [apply lookup_insert_eq | ].
Qed.

Lemma LLM_factory_run root cfg w :
  LLM.factory_llm root cfg w
  = (LLM._create_vector_store (fresh (dom (objects w)))
       (embeddings_of (class_of cfg) cfg) (index_of (class_of cfg)) root
     ≫= λ vs, setattr (fresh (dom (objects w))) (set_vector_store vs)
              ≫= λ _, mret (fresh (dom (objects w))))
      (under_construction w cfg root [Stdout ("SET UP" +:+ nl)]).
Proof.
  unfold LLM.factory_llm, print, under_construction, constructing, class_of. step_log.
  destruct (bool_decide (model_type cfg = "openai"));
    (step_with ltac:(reflexivity));
    (erewrite bind_head_eq; [ | by apply LLM_init_run, lookup_insert_eq ]);
    rewrite bind_assoc; simpl; by rewrite insert_insert_eq.
Qed.
Lemma llm_create_model_run self w o cfg :
  objects w !! self = Some o → config o = Some cfg →
  llm._create_model self w = (Returned (model_of (cls o) cfg), w).
Proof.
  intros Ho Hcfg. unfold llm._create_model.
  step_with ltac:(apply getattr_run; by rewrite Ho).
  step_with ltac:(apply getattr_run; by rewrite Ho).
  by destruct (cls o).
Qed.

Lemma llm_create_store_eq self root w o cfg :
  objects w !! self = Some o → config o = Some cfg →
  llm._create_store self root w
  = llm._create_vector_store self (embeddings_of (cls o) cfg) (index_of (cls o)) root
      false w.
Proof.
  intros Ho Hcfg. unfold llm._create_store.
  step_with ltac:(apply getattr_run; by rewrite Ho).
  destruct (cls o); [done | ]. unfold llm.OpenAILLM_create_store.
  by step_with ltac:(apply getattr_run; by rewrite Ho).
Qed.

Lemma llm_init_run self root cfg w o :
  objects w !! self = Some o →
  llm.__init__ self root cfg w
  = (llm._create_vector_store self (embeddings_of (cls o) cfg) (index_of (cls o)) root
       false
     ≫= λ vs, setattr self (set_vector_store vs))
      (mkWorld (stores w)
               (<[self := mkInstance (cls o) (Some cfg) (Some (model_of (cls o) cfg))
                                     (Some root) (vector_store o)]> (objects w))
               (disk w) (trace w)).
Proof.
  intros Ho. unfold llm.__init__.
  step_with ltac:(by apply setattr_run).
  step_with ltac:(by eapply llm_create_model_run; [apply lookup_insert_eq | ]).
  step_with ltac:(apply setattr_run, lookup_insert_eq).
  step_with ltac:(apply setattr_run, lookup_insert_eq).
  rewrite !insert_insert_eq. simpl.
  apply bind_head_eq.
  by apply (llm_create_store_eq _ _ _
              (mkInstance (cls o) (Some cfg) (Some (model_of (cls o) cfg)) (Some root)
                          (vector_store o)) cfg);
    [apply lookup_insert_eq | ].
Qed.

Lemma llm_factory_run root cfg w :
  llm.factory_llm root cfg w
  = (llm._create_vector_store (fresh (dom (objects w)))
       (embeddings_of (class_of cfg) cfg) (index_of (class_of cfg)) root false
     ≫= λ vs, setattr (fresh (dom (objects w))) (set_vector_store vs)
              ≫= λ _, mret (fresh (dom (objects w))))
      (under_construction w cfg root []).
Proof.
  unfold llm.factory_llm, under_construction, constructing, class_of.
  rewrite app_nil_r.
  destruct (bool_decide (model_type cfg = "openai"));
    (step_with ltac:(reflexivity));
    (erewrite bind_head_eq; [ | by apply llm_init_run, lookup_insert_eq ]);
    rewrite bind_assoc; simpl; by rewrite insert_insert_eq.
Qed.

(** The configuration of the instance under construction is set. *)
Lemma under_construction_config w cfg root note :
  objects (under_construction w cfg root note) !! fresh (dom (objects w)) ≫= config
  = Some cfg.
Proof. unfold under_construction. simpl. by rewrite lookup_insert_eq. Qed.

(** What [factory_llm] does once [_create_vector_store] has returned
    [db] in the world [w2]: it assigns [vector_store] and returns the
    instance. *)
Lemma finish_construction w cfg root db (w2 : World) :
  objects w2 = <[fresh (dom (objects w)) := constructing cfg root]> (objects w) →
  (setattr (fresh (dom (objects w))) (set_vector_store db)
   ≫= λ _, mret (fresh (dom (objects w)))) w2
  = (Returned (fresh (dom (objects w))),
     mkWorld (stores w2)
             (<[fresh (dom (objects w)) := constructed cfg root db]> (objects w))
             (disk w2) (trace w2)).
Proof.
  intros Ho.
  step_with ltac:(apply setattr_run; rewrite Ho; apply lookup_insert_eq).
  unfold mret, M_ret. by rewrite Ho, insert_insert_eq.
Qed.
Lemma LLM_factory_reuse root cfg w entries :
  disk w !! index_path_of root (index_of (class_of cfg)) = Some entries →
  LLM.factory_llm root cfg w
  = (Returned (fresh (dom (objects w))),
     mkWorld (<[fresh (dom (stores w))
                := mkFaiss (Some (embeddings_of (class_of cfg) cfg)) entries]> (stores w))
             (<[fresh (dom (objects w))
                := constructed cfg root (fresh (dom (stores w)))]> (objects w))
             (disk w)
             (trace w ++ [Stdout ("SET UP" +:+ nl);
                          LoadLocal (index_path_of root (index_of (class_of cfg)));
                          Stdout (store_str (fresh (dom (stores w))) +:+ nl)])).
Proof.
  intros Hd. rewrite LLM_factory_run. unfold under_construction.
  step_with ltac:(by apply LLM_create_reuse).
  rewrite (finish_construction w cfg root) by done. simpl. by rewrite <- !app_assoc.
Qed.

Lemma llm_factory_reuse root cfg w entries :
  disk w !! index_path_of root (index_of (class_of cfg)) = Some entries →
  llm.factory_llm root cfg w
  = (Returned (fresh (dom (objects w))),
     mkWorld (<[fresh (dom (stores w))
                := mkFaiss (Some (embeddings_of (class_of cfg) cfg)) entries]> (stores w))
             (<[fresh (dom (objects w))
                := constructed cfg root (fresh (dom (stores w)))]> (objects w))
             (disk w)
             (trace w ++ [LoadLocal (index_path_of root (index_of (class_of cfg)));
                          Stderr ("Existing local vector store found: "
                                  +:+ store_str (fresh (dom (stores w))))])).
Proof.
  intros Hd. rewrite llm_factory_run. unfold under_construction.
  step_with ltac:(by apply llm_create_reuse).
  rewrite (finish_construction w cfg root) by done. simpl. by rewrite <- !app_assoc.
Qed.

Lemma LLM_factory_no_documents root cfg w :
  disk w !! index_path_of root (index_of (class_of cfg)) = None →
  load_files (normpath root) = [] →
  LLM.factory_llm root cfg w
  = (Exited 0,
     under_construction w cfg root
       [Stdout ("SET UP" +:+ nl);
        LoadLocal (index_path_of root (index_of (class_of cfg)));
        LoadFiles (normpath root); Stdout ("✘ No documents found" +:+ nl)]).
Proof.
  intros Hd Hdocs. rewrite LLM_factory_run.
  erewrite bind_exited; [ | by apply LLM_create_no_documents].
  unfold under_construction, extend. simpl. by rewrite <- !app_assoc.
Qed.

Lemma llm_factory_no_documents root cfg w :
  disk w !! index_path_of root (index_of (class_of cfg)) = None →
  load_files (normpath root) = [] →
  llm.factory_llm root cfg w
  = (Exited 0,
     under_construction w cfg root
       [LoadLocal (index_path_of root (index_of (class_of cfg)));
        LoadFiles (normpath root); Stderr "✘ No documents found"]).
Proof.
  intros Hd Hdocs. rewrite llm_factory_run.
  erewrite bind_exited; [ | by apply llm_create_no_documents].
  unfold under_construction, extend. simpl. by rewrite <- !app_assoc.
Qed.

Lemma LLM_factory_build root cfg w :
  disk w !! index_path_of root (index_of (class_of cfg)) = None →
  load_files (normpath root) ≠ [] →
  (chunk_overlap cfg ≤ chunk_size cfg)%Z →
  split_documents (chunk_size cfg) (chunk_overlap cfg) (load_files (normpath root)) ≠ [] →
  let docs := load_files (normpath root) in
  let texts := split_documents (chunk_size cfg) (chunk_overlap cfg) docs in
  let index := index_of (class_of cfg) in
  let emb := embeddings_of (class_of cfg) cfg in
  LLM.factory_llm root cfg w
  = (Returned (fresh (dom (objects w))),
     mkWorld (<[fresh (dom (stores w)) := mkFaiss (Some emb) (texts ++ texts)]> (stores w))
             (<[fresh (dom (objects w))
                := constructed cfg root (fresh (dom (stores w)))]> (objects w))
             (<[index_path_of root index := texts ++ texts]> (disk w))
             (trace w
              ++ [Stdout ("SET UP" +:+ nl);
                  LoadLocal (index_path_of root index); LoadFiles (normpath root)]
              ++ build_events emb cfg (index_path_of root index) docs
                   ((if bool_decide (index = MODEL_TYPES_OPENAI)
                     then [Stdout (cost_str docs (model_name cfg) +:+ nl)]
                     else [])
                    ++ [HaloStart ("Creating vector store for "
                                   +:+ pretty (length docs) +:+ " documents")])
              ++ [HaloSucceed ("Created vector store for "
                               +:+ pretty (length docs) +:+ " documents")])).
Proof.
  intros Hd Hdocs Hsize Htexts docs texts index emb. rewrite LLM_factory_run.
  step_with ltac:(by apply LLM_create_build;
                    [ | apply under_construction_config | | | ]).
  rewrite (finish_construction w cfg root) by done. simpl. by rewrite <- !app_assoc.
Qed.

Lemma llm_factory_build root cfg w :
  disk w !! index_path_of root (index_of (class_of cfg)) = None →
  load_files (normpath root) ≠ [] →
  (chunk_overlap cfg ≤ chunk_size cfg)%Z →
  split_documents (chunk_size cfg) (chunk_overlap cfg) (load_files (normpath root)) ≠ [] →
  let docs := load_files (normpath root) in
  let texts := split_documents (chunk_size cfg) (chunk_overlap cfg) docs in
  let index := index_of (class_of cfg) in
  let emb := embeddings_of (class_of cfg) cfg in
  llm.factory_llm root cfg w
  = (Returned (fresh (dom (objects w))),
     mkWorld (<[fresh (dom (stores w)) := mkFaiss (Some emb) (texts ++ texts)]> (stores w))
             (<[fresh (dom (objects w))
                := constructed cfg root (fresh (dom (stores w)))]> (objects w))
             (<[index_path_of root index := texts ++ texts]> (disk w))
             (trace w
              ++ [LoadLocal (index_path_of root index); LoadFiles (normpath root)]
              ++ build_events emb cfg (index_path_of root index) docs
                   (if bool_decide (index = MODEL_TYPES_OPENAI)
                    then [Stderr ("Creating a vector store with estimated cost ~$"
                                  +:+ cost_fixed5 docs (model_name cfg))]
                    else []))).
Proof.
  intros Hd Hdocs Hsize Htexts docs texts index emb. rewrite llm_factory_run.
  step_with ltac:(by apply llm_create_build;
                    [ | apply under_construction_config | | | ]).
  rewrite (finish_construction w cfg root) by done. simpl. by rewrite app_nil_r.
Qed.

(** When the index cannot be built, [factory_llm] raises in the middle of
    [__init__]. *)
Lemma LLM_factory_build_fails root cfg w :
  disk w !! index_path_of root (index_of (class_of cfg)) = None →
  load_files (normpath root) ≠ [] →
  ¬ ((chunk_overlap cfg ≤ chunk_size cfg)%Z
     ∧ split_documents (chunk_size cfg) (chunk_overlap cfg) (load_files (normpath root))
       ≠ []) →
  ∃ exn w', LLM.factory_llm root cfg w = (Raised exn, w').
Proof.
  intros Hd Hdocs Hbad. rewrite LLM_factory_run.
  edestruct (LLM_create_build_fails (fresh (dom (objects w)))
               (embeddings_of (class_of cfg) cfg) (index_of (class_of cfg)) root
               (under_construction w cfg root [Stdout ("SET UP" +:+ nl)]) cfg)
    as (exn & w' & Hfail); [done | apply under_construction_config | done | done | ].
  exists exn, w'. by erewrite bind_raised.
Qed.

Lemma llm_factory_build_fails root cfg w :
  disk w !! index_path_of root (index_of (class_of cfg)) = None →
  load_files (normpath root) ≠ [] →
  ¬ ((chunk_overlap cfg ≤ chunk_size cfg)%Z
     ∧ split_documents (chunk_size cfg) (chunk_overlap cfg) (load_files (normpath root))
       ≠ []) →
  ∃ exn w', llm.factory_llm root cfg w = (Raised exn, w').
Proof.
  intros Hd Hdocs Hbad. rewrite llm_factory_run.
  edestruct (llm_create_build_fails (fresh (dom (objects w)))
               (embeddings_of (class_of cfg) cfg) (index_of (class_of cfg)) root false
               (under_construction w cfg root []) cfg)
    as (exn & w' & Hfail); [done | apply under_construction_config | done | done | ].
  exists exn, w'. by erewrite bind_raised.
Qed.
End Construction.

(** ** What the methods leave alone

    A relation between worlds that is reflexive and transitive and holds
    across every primitive a method uses holds across the method, whatever
    its outcome. *)
Section Respects.
Context `{Collaborators}.
Variable R : World → World → Prop.
Hypothesis R_refl : ∀ w, R w w.
Hypothesis R_trans : ∀ w1 w2 w3, R w1 w2 → R w2 w3 → R w1 w3.
Hypothesis R_trace : ∀ w e, R w (snd (log e w)).

Lemma respects_ret {A} (a : A) : respects R (mret a).
Proof. intros w. apply R_refl. Qed.

Lemma respects_bind {A B} (m : M A) (f : A → M B) :
  respects R m → (∀ a, respects R (f a)) → respects R (m ≫= f).
Proof.
  intros Hm Hf w. specialize (Hm w). unfold mbind, M_bind.
  destruct (m w) as [[a | code | exn] w1]; simpl in *; [ | done | done].
  eapply R_trans; [exact Hm | apply Hf].
Qed.

Lemma respects_exit {A} code : respects R (exit (A := A) code).
Proof. intros w. apply R_refl. Qed.

Lemma respects_raise {A} exn : respects R (raise (A := A) exn).
Proof. intros w. apply R_refl. Qed.

Lemma respects_lift {A} (o : Outcome A) : respects R (lift o).
Proof. intros w. apply R_refl. Qed.

Lemma respects_log e : respects R (log e).
Proof. intros w. apply R_trace. Qed.

Lemma respects_getattr {A} self (field : Instance → option A) :
  respects R (getattr self field).
Proof. intros w. unfold getattr. destruct (_ ≫= _); apply R_refl. Qed.

Lemma respects_read_store db : respects R (read_store db).
Proof. intros w. unfold read_store. destruct (_ !! _); apply R_refl. Qed.

Lemma respects_read_disk index_path : respects R (read_disk index_path).
Proof. intros w. apply R_refl. Qed.

Lemma respects_search db query top : respects R (search db query top).
Proof.
  unfold search. apply respects_bind; [apply respects_read_store | intros s].
  apply respects_bind; [apply respects_log | intros _]. apply respects_lift.
Qed.

(** The three [send_query] keep such a relation. *)
Lemma send_query_respects self query :
  respects R (llm.send_query self query) ∧ respects R (LLM.send_query self query).
Proof.
  split.
  - unfold llm.send_query, llm.LocalLLM_send_query, llm.OpenAILLM_send_query,
      llm.embedding_search, stderr_write.
    apply respects_bind; [apply respects_getattr | intros []];
      repeat first [ apply respects_log | apply respects_getattr | apply respects_search
                   | apply respects_bind; [ | intros ? ] ].
  - unfold LLM.send_query, LLM.RetrievalQA, print.
    repeat first [ apply respects_log | apply respects_getattr | apply respects_search
                 | apply respects_ret | apply respects_bind; [ | intros ? ] ].
Qed.

(** With changes to the FAISS objects and to one directory of the disk
    allowed as well, the relation holds across creation and update for that
    directory. *)
Section Writing.
Variables (root index : string).
Hypothesis R_stores : ∀ w f, R w (set_stores f w).
Hypothesis R_disk : ∀ w entries,
  R w (set_disk <[index_path_of root index := entries]> w).

Lemma respects_write_store db s : respects R (write_store db s).
Proof. intros w. apply R_stores. Qed.

Lemma respects_alloc_store s : respects R (alloc_store s).
Proof. intros w. apply R_stores. Qed.

Lemma respects_write_disk entries :
  respects R (write_disk (index_path_of root index) entries).
Proof. intros w. apply R_disk. Qed.

Ltac respects_steps :=
  repeat first
    [ apply respects_ret | apply respects_exit | apply respects_raise
    | apply respects_log
    | apply respects_getattr | apply respects_read_store | apply respects_read_disk
    | apply respects_write_store | apply respects_alloc_store
    | apply respects_write_disk
    | apply respects_bind; [ | intros ? ]
    | match goal with
      | |- respects _ (if ?b then _ else _) => destruct b
      | |- respects _ (match ?x with Some _ => _ | None => _ end) => destruct x
      end ].

Lemma respects_from_documents texts emb : respects R (from_documents texts emb).
Proof. unfold from_documents. respects_steps. Qed.

Lemma respects_add_documents db texts : respects R (add_documents db texts).
Proof. unfold add_documents. respects_steps. Qed.

Lemma respects_save_local db : respects R (save_local db (index_path_of root index)).
Proof. unfold save_local. respects_steps. Qed.

Lemma respects_load_local emb : respects R (load_local (index_path_of root index) emb).
Proof. unfold load_local. respects_steps. Qed.

Lemma respects_get_local emb :
  respects R (get_local_vector_store emb (index_path_of root index)).
Proof.
  intros w. unfold get_local_vector_store.
  pose proof (respects_load_local (Some emb) w) as Hload.
  by destruct (load_local _ _ w) as [[db | code | exn] w1].
Qed.

Lemma respects_splitter size overlap :
  respects R (RecursiveCharacterTextSplitter size overlap).
Proof. unfold RecursiveCharacterTextSplitter. respects_steps. Qed.

Lemma respects_split_documents text_splitter docs :
  respects R (splitter_split_documents text_splitter docs).
Proof. unfold splitter_split_documents. respects_steps. Qed.

Lemma respects_update_each db text_splitter paths :
  respects R (LLM.update_each db text_splitter paths).
Proof.
  induction paths as [ | p paths IH]; [apply respects_ret | ].
  cbn [LLM.update_each]. unfold LLM.load_file, remove_documents_where, print.
  apply respects_bind; [apply respects_raise | intros updated_docs].
  apply respects_bind; [ | intros _; exact IH].
  destruct (bool_decide _); [apply respects_log | ].
  apply respects_bind; [apply respects_split_documents | intros updated_texts].
  apply respects_bind; [apply respects_raise | intros _].
  apply respects_add_documents.
Qed.

Lemma create_and_update_respect self emb force paths :
  respects R (llm._create_vector_store self emb index root force)
  ∧ respects R (LLM._create_vector_store self emb index root)
  ∧ respects R (LLM._update_vector_store self paths emb index root).
Proof.
  pose proof respects_from_documents. pose proof respects_add_documents.
  pose proof respects_save_local. pose proof respects_load_local.
  pose proof respects_get_local. pose proof respects_splitter.
  pose proof respects_split_documents. pose proof respects_update_each.
  split; [ | split].
  - unfold llm._create_vector_store, stderr_write.
    cbv zeta. fold (index_path_of root index).
    destruct force; cbn [negb]; respects_steps; auto.
  - unfold LLM._create_vector_store, print.
    cbv zeta. fold (index_path_of root index).
    respects_steps; auto.
  - unfold LLM._update_vector_store, print.
    cbv zeta. fold (index_path_of root index).
    respects_steps; auto.
Qed.
End Writing.
End Respects.

(** ** Further properties: construction *)

Section Construction_properties.
Context `{Collaborators}.

(** X1: whenever [factory_llm] returns, it returns a new, fully
    initialised instance.  Its class is [OpenAILLM] when [model_type] is
    ["openai"] and [LocalLLM] for every other value; its model is built
    from the configuration; its [vector_store] is a new FAISS object that
    embeds with the provider of the class and whose entries are persisted
    under the index name of the class.  No other instance changes. *)
Theorem factory_returns_initialised_instance root cfg w self w' :
  llm.factory_llm root cfg w = (Returned self, w')
  ∨ LLM.factory_llm root cfg w = (Returned self, w') →
  objects w !! self = None
  ∧ (∀ other, other ≠ self → objects w' !! other = objects w !! other)
  ∧ ∃ vs s,
      ready w' self (class_of cfg) cfg (model_of (class_of cfg) cfg) vs s
      ∧ stores w !! vs = None
      ∧ embedding_function s = Some (embeddings_of (class_of cfg) cfg)
      ∧ disk w' !! index_path_of root (index_of (class_of cfg)) = Some (docstore s).
Proof.
  intros Hrun.
  assert (∃ s d t,
            (Returned self, w')
            = (Returned (fresh (dom (objects w))),
               mkWorld (<[fresh (dom (stores w)) := s]> (stores w))
                       (<[fresh (dom (objects w))
                          := constructed cfg root (fresh (dom (stores w)))]> (objects w))
                       d t)
            ∧ embedding_function s = Some (embeddings_of (class_of cfg) cfg)
            ∧ d !! index_path_of root (index_of (class_of cfg))
              = Some (docstore s)) as (s & d & t & Heq & Hemb & Hdisk).
  { destruct (disk w !! index_path_of root (index_of (class_of cfg)))
      as [entries | ] eqn:Hd.
    - destruct Hrun as [Hrun | Hrun];
        [ rewrite (llm_factory_reuse _ _ _ _ Hd) in Hrun
        | rewrite (LLM_factory_reuse _ _ _ _ Hd) in Hrun ];
        rewrite <- Hrun; eexists (mkFaiss _ entries), _, _; by split.
    - destruct (decide (load_files (normpath root) = [])) as [Hdocs | Hdocs].
      { destruct Hrun as [Hrun | Hrun];
          [ by rewrite (llm_factory_no_documents _ _ _ Hd Hdocs) in Hrun
          | by rewrite (LLM_factory_no_documents _ _ _ Hd Hdocs) in Hrun ]. }
      destruct (decide ((chunk_overlap cfg ≤ chunk_size cfg)%Z
                        ∧ split_documents (chunk_size cfg) (chunk_overlap cfg)
                            (load_files (normpath root)) ≠ []))
        as [[Hsize Htexts] | Hbad].
      2: { destruct Hrun as [Hrun | Hrun];
             [ destruct (llm_factory_build_fails _ _ w Hd Hdocs Hbad)
                 as (exn & w1 & Hfail)
             | destruct (LLM_factory_build_fails _ _ w Hd Hdocs Hbad)
                 as (exn & w1 & Hfail) ];
             by rewrite Hrun in Hfail. }
      destruct Hrun as [Hrun | Hrun];
        [ rewrite (llm_factory_build _ _ _ Hd Hdocs Hsize Htexts) in Hrun
        | rewrite (LLM_factory_build _ _ _ Hd Hdocs Hsize Htexts) in Hrun ];
        rewrite <- Hrun; eexists (mkFaiss _ _), _, _;
        (split; [reflexivity | split; [reflexivity | ]]);
        simpl; by rewrite lookup_insert_eq. }
  injection Heq as -> ->. simpl.
  split; [apply fresh_object_unused | ].
  split; [intros other Hne; by rewrite lookup_insert_ne | ].
  exists (fresh (dom (stores w))), s.
  split; [ | split; [apply fresh_store_unused | by split]].
  split; simpl; [ | by rewrite lookup_insert_eq].
  exists root. by rewrite lookup_insert_eq.
Qed.

(** X2: with nothing persisted under the index name of the class and no
    document under the root, [factory_llm] ends the process with [exit(0)]
    in the middle of [__init__]: no instance is returned, the instance under
    construction has no [vector_store], and neither a FAISS object nor an
    index is created. *)
Theorem factory_exits_without_documents root cfg w :
  disk w !! index_path_of root (index_of (class_of cfg)) = None →
  load_files (normpath root) = [] →
  llm.factory_llm root cfg w
  = (Exited 0,
     under_construction w cfg root
       [LoadLocal (index_path_of root (index_of (class_of cfg)));
        LoadFiles (normpath root); Stderr "✘ No documents found"])
  ∧ LLM.factory_llm root cfg w
    = (Exited 0,
       under_construction w cfg root
         [Stdout ("SET UP" +:+ nl);
          LoadLocal (index_path_of root (index_of (class_of cfg)));
          LoadFiles (normpath root); Stdout ("✘ No documents found" +:+ nl)])
  ∧ vector_store (constructing cfg root) = None.
Proof.
  intros Hd Hdocs. split; [by apply llm_factory_no_documents | ].
  split; [by apply LLM_factory_no_documents | done].
Qed.

(** X3: when an index is persisted under the index name of the class,
    [factory_llm] builds the instance on it: the instance's store holds the
    persisted entries, the disk is unchanged, and nothing is loaded, split,
    embedded or saved. *)
Theorem factory_reuses_persisted_index root cfg w entries :
  disk w !! index_path_of root (index_of (class_of cfg)) = Some entries →
  ∀ run, run = llm.factory_llm root cfg w ∨ run = LLM.factory_llm root cfg w →
    ∃ t, run = (Returned (fresh (dom (objects w))),
                mkWorld (<[fresh (dom (stores w))
                           := mkFaiss (Some (embeddings_of (class_of cfg) cfg)) entries]>
                           (stores w))
                        (<[fresh (dom (objects w))
                           := constructed cfg root (fresh (dom (stores w)))]> (objects w))
                        (disk w) (trace w ++ t))
         ∧ count_events is_load t = 0
         ∧ count_events is_split t = 0
         ∧ count_events is_embed t = 0
         ∧ count_events is_save t = 0.
Proof.
  intros Hd run [-> | ->].
  - rewrite (llm_factory_reuse _ _ _ _ Hd). by eexists [_; _].
  - rewrite (LLM_factory_reuse _ _ _ _ Hd). by eexists [_; _; _].
Qed.

(** X18: a configuration whose overlap is larger than its chunk size is
    refused when an index has to be built.  With nothing persisted under
    the index name of the class and documents under the root,
    [factory_llm] raises [ValueError] in the middle of [__init__], once
    the documents are loaded: no instance is returned, the instance under
    construction has no [vector_store], nothing is split or embedded, and
    neither a FAISS object nor an index is created. *)
Theorem factory_raises_on_oversized_overlap root cfg w :
  disk w !! index_path_of root (index_of (class_of cfg)) = None →
  load_files (normpath root) ≠ [] →
  (chunk_size cfg < chunk_overlap cfg)%Z →
  llm.factory_llm root cfg w
  = (Raised "ValueError",
     under_construction w cfg root
       [LoadLocal (index_path_of root (index_of (class_of cfg)));
        LoadFiles (normpath root)])
  ∧ LLM.factory_llm root cfg w
    = (Raised "ValueError",
       under_construction w cfg root
         [Stdout ("SET UP" +:+ nl);
          LoadLocal (index_path_of root (index_of (class_of cfg)));
          LoadFiles (normpath root)])
  ∧ vector_store (constructing cfg root) = None.
Proof.
  intros Hd Hdocs Hsize. split; [ | split; [ | done]].
  - rewrite llm_factory_run.
    erewrite bind_raised;
      [ | by eapply llm_create_bad_overlap; [ | apply under_construction_config | | ] ].
    unfold under_construction, extend. simpl. by rewrite <- !app_assoc.
  - rewrite LLM_factory_run.
    erewrite bind_raised;
      [ | by eapply LLM_create_bad_overlap; [ | apply under_construction_config | | ] ].
    unfold under_construction, extend. simpl. by rewrite <- !app_assoc.
Qed.
End Construction_properties.

(** ** Further properties: creation *)

(** Membership of an event in a trace that is written out. *)
Ltac in_list :=
  repeat first [ apply list_elem_of_here | apply list_elem_of_further ].
Ltac not_in_list Hin :=
  repeat (apply elem_of_cons in Hin as [Hin | Hin]; [discriminate Hin | ]);
  by apply elem_of_nil in Hin.

Section Create_properties.
Context `{Collaborators}.

(** X6: with [force_recreate] the persisted index is never consulted.
    Whatever is on disk, documents are loaded and split without a
    [LoadLocal].  When the splitter accepts the configuration and there is
    a chunk, the chunks are embedded and the index path is overwritten with
    the new store; when the splitter refuses the configuration the call
    raises and what was persisted stays. *)
Theorem force_recreate_rebuilds self emb index root w cfg :
  objects w !! self ≫= config = Some cfg →
  load_files (normpath root) ≠ [] →
  let docs := load_files (normpath root) in
  let texts := split_documents (chunk_size cfg) (chunk_overlap cfg) docs in
  ((chunk_overlap cfg ≤ chunk_size cfg)%Z → texts ≠ [] →
   llm._create_vector_store self emb index root true w
   = (Returned (fresh (dom (stores w))),
      mkWorld (<[fresh (dom (stores w)) := mkFaiss (Some emb) (texts ++ texts)]>
                 (stores w))
              (objects w)
              (<[index_path_of root index := texts ++ texts]> (disk w))
              (trace w
               ++ [LoadFiles (normpath root)]
               ++ build_events emb cfg (index_path_of root index) docs
                    (if bool_decide (index = MODEL_TYPES_OPENAI)
                     then [Stderr ("Creating a vector store with estimated cost ~$"
                                   +:+ cost_fixed5 docs (model_name cfg))]
                     else []))))
  ∧ ((chunk_size cfg < chunk_overlap cfg)%Z →
     llm._create_vector_store self emb index root true w
     = (Raised "ValueError", extend w [LoadFiles (normpath root)])).
Proof.
  intros Hcfg Hdocs docs texts. split.
  - intros Hsize Htexts.
    by rewrite (llm_create_build self emb index root true w cfg).
  - intros Hsize.
    by rewrite (llm_create_bad_overlap self emb index root true w cfg).
Qed.

(** X7: with [force_recreate] and no document under the root the process
    ends with [exit(0)] before anything is written: an index that was
    persisted stays on disk as it was. *)
Theorem force_recreate_without_documents_keeps_index self emb index root w :
  load_files (normpath root) = [] →
  llm._create_vector_store self emb index root true w
  = (Exited 0, extend w [LoadFiles (normpath root); Stderr "✘ No documents found"])
  ∧ disk (snd (llm._create_vector_store self emb index root true w)) = disk w.
Proof.
  intros Hdocs.
  by rewrite (llm_create_no_documents self emb index root true w).
Qed.

(** X8: when a new index is built, the cost estimate is reported exactly
    when the index name is that of the OpenAI model type, on stderr by
    [llm.py] and on stdout by [LLM.py]; the store that is built does not
    depend on it.  When the splitter refuses the configuration the call
    raises before the report, for every index name. *)
Theorem cost_reported_for_openai_index self emb index root force w cfg :
  disk w !! index_path_of root index = None →
  objects w !! self ≫= config = Some cfg →
  load_files (normpath root) ≠ [] →
  let docs := load_files (normpath root) in
  let texts := split_documents (chunk_size cfg) (chunk_overlap cfg) docs in
  ∀ run report,
    run = llm._create_vector_store self emb index root force w
    ∧ report = Stderr ("Creating a vector store with estimated cost ~$"
                       +:+ cost_fixed5 docs (model_name cfg))
    ∨ run = LLM._create_vector_store self emb index root w
      ∧ report = Stdout (cost_str docs (model_name cfg) +:+ nl) →
    ∃ t, trace (snd run) = trace w ++ t
         ∧ ((chunk_overlap cfg ≤ chunk_size cfg)%Z → texts ≠ [] →
            fst run = Returned (fresh (dom (stores w)))
            ∧ stores (snd run) !! fresh (dom (stores w))
              = Some (mkFaiss (Some emb) (texts ++ texts))
            ∧ (report ∈ t ↔ index = MODEL_TYPES_OPENAI))
         ∧ ((chunk_size cfg < chunk_overlap cfg)%Z →
            fst run = Raised "ValueError" ∧ report ∉ t).
Proof.
  intros Hd Hcfg Hdocs docs texts run report Hrun.
  destruct (decide (chunk_size cfg < chunk_overlap cfg)%Z) as [Hbad | Hsize].
  { destruct Hrun as [[-> ->] | [-> ->]].
    - rewrite (llm_create_bad_overlap _ _ _ _ _ _ _ (λ _, Hd) Hcfg Hdocs Hbad).
      eexists. split; [reflexivity | ]. split; [intros; lia | intros _].
      split; [done | ]. intros Hin. destruct force; simpl in Hin; not_in_list Hin.
    - rewrite (LLM_create_bad_overlap _ _ _ _ _ _ Hd Hcfg Hdocs Hbad).
      eexists. split; [reflexivity | ]. split; [intros; lia | intros _].
      split; [done | ]. intros Hin. simpl in Hin; not_in_list Hin. }
  destruct (decide (texts = [])) as [Hnone | Htexts].
  { exists (drop (length (trace w)) (trace (snd run))).
    assert (∃ t, trace (snd run) = trace w ++ t) as [t Ht].
    { destruct Hrun as [[-> ->] | [-> ->]].
      - rewrite (llm_create_no_chunks _ _ _ _ _ _ _ (λ _, Hd) Hcfg Hdocs); [ | lia | done].
        by eexists.
      - rewrite (LLM_create_no_chunks _ _ _ _ _ _ Hd Hcfg Hdocs); [ | lia | done].
        by eexists. }
    rewrite Ht, drop_app_length. split; [done | ].
    split; [done | intros; lia]. }
  assert (chunk_overlap cfg ≤ chunk_size cfg)%Z as Hle by lia.
  destruct Hrun as [[-> ->] | [-> ->]].
  - rewrite (llm_create_build _ _ _ _ _ _ _ (λ _, Hd) Hcfg Hdocs Hle Htexts).
    eexists. split; [reflexivity | ]. split; [intros _ _ | intros; lia].
    split; [done | ]. split; [simpl; by rewrite lookup_insert_eq | ].
    unfold build_events. case_bool_decide as Hidx.
    + split; [done | intros _]. destruct force; simpl; in_list.
    + split; [ | done]. intros Hin. exfalso.
      destruct force; simpl in Hin; not_in_list Hin.
  - rewrite (LLM_create_build _ _ _ _ _ _ Hd Hcfg Hdocs Hle Htexts).
    eexists. split; [reflexivity | ]. split; [intros _ _ | intros; lia].
    split; [done | ]. split; [simpl; by rewrite lookup_insert_eq | ].
    unfold build_events. case_bool_decide as Hidx.
    + split; [done | intros _]. simpl; in_list.
    + split; [ | done]. intros Hin. exfalso. simpl in Hin; not_in_list Hin.
Qed.
End Create_properties.

(** ** Further properties: what the methods leave alone *)

Section Frame_properties.
Context `{Collaborators}.

Lemma extend_nil w : extend w [] = w.
Proof. unfold extend. rewrite app_nil_r. by destruct w. Qed.

(** X13: a question changes nothing but the trace.  Whatever the state of
    the instance and whatever the outcome, after [send_query] the FAISS
    objects, the instances and the disk are as before; only events were
    added. *)
Theorem send_query_only_logs self query w :
  (∃ t, snd (llm.send_query self query w) = extend w t)
  ∧ (∃ t, snd (LLM.send_query self query w) = extend w t).
Proof.
  assert (respects only_logs (llm.send_query self query)
          ∧ respects only_logs (LLM.send_query self query)) as [Hllm HLLM].
  { apply send_query_respects.
    - intros w0. exists []. by rewrite extend_nil.
    - intros w1 w2 w3 [t1 ->] [t2 ->]. exists (t1 ++ t2). by rewrite extend_extend.
    - intros w0 e. by exists [e]. }
  split; [apply Hllm | apply HLLM].
Qed.

(** X14: creation and update write to the disk at the index path only.
    Whatever their outcome, every other directory of the disk is as it was
    before [_create_vector_store] and [_update_vector_store]. *)
Theorem create_and_update_write_index_path_only self emb index root force paths w other :
  other ≠ index_path_of root index →
  disk (snd (llm._create_vector_store self emb index root force w)) !! other
  = disk w !! other
  ∧ disk (snd (LLM._create_vector_store self emb index root w)) !! other
    = disk w !! other
  ∧ disk (snd (LLM._update_vector_store self paths emb index root w)) !! other
    = disk w !! other.
Proof.
  intros Hother.
  destruct (create_and_update_respect (same_disk_but (index_path_of root index)))
    with (root := root) (index := index) (self := self) (emb := emb) (force := force)
         (paths := paths) as (Hllm & HLLM & Hupdate).
  - by intros w0 p Hp.
  - intros w1 w2 w3 H12 H23 p Hp. by rewrite H23, H12.
  - by intros w0 e p Hp.
  - by intros w0 f p Hp.
  - intros w0 entries p Hp. simpl. by rewrite lookup_insert_ne.
  - split; [by apply Hllm | split; [by apply HLLM | by apply Hupdate]].
Qed.

(** X15: creation, update and questions assign no attribute.  Whatever
    their outcome, every instance is as it was before
    [_create_vector_store], [_update_vector_store] and [send_query]. *)
Theorem methods_assign_no_attribute self emb index root force paths query w :
  objects (snd (llm._create_vector_store self emb index root force w)) = objects w
  ∧ objects (snd (LLM._create_vector_store self emb index root w)) = objects w
  ∧ objects (snd (LLM._update_vector_store self paths emb index root w)) = objects w
  ∧ objects (snd (llm.send_query self query w)) = objects w
  ∧ objects (snd (LLM.send_query self query w)) = objects w.
Proof.
  assert (∀ w0, same_objects w0 w0) as Hrefl by done.
  assert (∀ w1 w2 w3, same_objects w1 w2 → same_objects w2 w3 → same_objects w1 w3)
    as Htrans.
  { unfold same_objects. intros w1 w2 w3 H12 H23. by rewrite H23. }
  assert (∀ w0 e, same_objects w0 (snd (log e w0))) as Htrace by done.
  destruct (create_and_update_respect same_objects Hrefl Htrans Htrace root index)
    with (self := self) (emb := emb) (force := force) (paths := paths)
    as (Hllm & HLLM & Hupdate); [done | done | ].
  destruct (send_query_respects same_objects Hrefl Htrans Htrace self query)
    as [Hq HQ].
  split; [apply Hllm | ]. split; [apply HLLM | ]. split; [apply Hupdate | ].
  split; [apply Hq | apply HQ].
Qed.
End Frame_properties.

(** ** Further properties: sessions *)

Section Session_properties.
Context `{Collaborators}.

(** X16: after [factory_llm] of [LLM.py] has built a new index, a question
    to the instance it returned is searched in the doubled chunk list: the
    search runs over [texts ++ texts], with the [k] of the configuration,
    and the model that answers is the one built from the configuration. *)
Theorem question_after_build_searches_doubled_chunks root cfg w self w' question :
  disk w !! index_path_of root (index_of (class_of cfg)) = None →
  load_files (normpath root) ≠ [] →
  LLM.factory_llm root cfg w = (Returned self, w') →
  let texts := split_documents (chunk_size cfg) (chunk_overlap cfg)
                 (load_files (normpath root)) in
  LLM.send_query self question w'
  = match similarity (texts ++ texts) question (k cfg) with
    | Returned docs =>
        (Returned (),
         extend w' [Search question (k cfg);
                    Complete (model_of (class_of cfg) cfg)
                      (PromptText (stuff_prompt docs question));
                    Stdout (nl +:+ str_join nl
                              (map (λ d, "📄 " +:+ abspath (source (metadata d)) +:+ ":")
                                   docs) +:+ nl)])
    | Exited code => (Exited code, extend w' [Search question (k cfg)])
    | Raised exn => (Raised exn, extend w' [Search question (k cfg)])
    end.
Proof.
  intros Hd Hdocs Hrun texts.
  destruct (decide ((chunk_overlap cfg ≤ chunk_size cfg)%Z ∧ texts ≠ []))
    as [[Hsize Htexts] | Hbad].
  2: { destruct (LLM_factory_build_fails _ _ w Hd Hdocs Hbad) as (exn & w1 & Hfail).
       by rewrite Hrun in Hfail. }
  rewrite (LLM_factory_build _ _ _ Hd Hdocs Hsize Htexts) in Hrun.
  injection Hrun as <- <-.
  apply (LLM_send_query_run _ _ (class_of cfg) cfg (model_of (class_of cfg) cfg)
           (fresh (dom (stores w)))
           (mkFaiss (Some (embeddings_of (class_of cfg) cfg)) (texts ++ texts))).
  split; simpl; [ | by rewrite lookup_insert_eq].
  exists root. by rewrite lookup_insert_eq.
Qed.

End Session_properties.

(** ** The further properties on the concrete repository *)

Section Scenario_properties.
#[local] Existing Instance Scenario.collaborators.

Lemma repo_has_documents : load_files (normpath "repo") ≠ [].
Proof. vm_compute. intros ?; discriminate. Qed.

Lemma other_directory : "repo/vector_store/openai" ≠ index_path_of "repo" "local".
Proof. vm_compute. intros ?; discriminate. Qed.

Lemma elsewhere_has_none : load_files (normpath "elsewhere") = [].
Proof. reflexivity. Qed.

Lemma indexed_returns top :
  LLM.factory_llm "repo" (Scenario.settings top) Scenario.empty
  = (Returned 0, snd (Scenario.indexed_by_LLM top)).
Proof. by vm_compute. Qed.

Lemma indexed_disk top :
  disk (snd (Scenario.indexed_by_LLM top))
       !! index_path_of "repo" (index_of (class_of (Scenario.settings top)))
  = Some [Scenario.a_old; Scenario.b_old; Scenario.a_old; Scenario.b_old].
Proof. by vm_compute. Qed.

Lemma indexed_config top :
  objects (snd (Scenario.indexed_by_LLM top)) !! 0 ≫= config = Some (Scenario.settings top).
Proof. by vm_compute. Qed.

Lemma factory_returns_initialised_instance_witness :
  objects Scenario.empty !! 0 = None
  ∧ ∃ vs s,
      ready (snd (Scenario.indexed_by_LLM 2)) 0 LocalLLM (Scenario.settings 2)
            Scenario.local_model vs s
      ∧ embedding_function s = Some Scenario.minilm.
Proof.
  destruct (factory_returns_initialised_instance "repo" (Scenario.settings 2)
              Scenario.empty 0 (snd (Scenario.indexed_by_LLM 2))
              (or_intror (indexed_returns 2)))
    as (Hnew & _ & vs & s & Hready & _ & Hemb & _).
  split; [exact Hnew | ]. exists vs, s. split; [exact Hready | exact Hemb].
Defined.

Lemma factory_exits_without_documents_witness :
  load_files (normpath "elsewhere") = []
  ∧ fst (llm.factory_llm "elsewhere" (Scenario.settings 2) Scenario.empty) = Exited 0
  ∧ fst (LLM.factory_llm "elsewhere" (Scenario.settings 2) Scenario.empty) = Exited 0.
Proof.
  split; [reflexivity | ].
  destruct (factory_exits_without_documents "elsewhere" (Scenario.settings 2)
              Scenario.empty ltac:(reflexivity) ltac:(reflexivity)) as (-> & -> & _).
  split; reflexivity.
Defined.

Lemma factory_raises_on_oversized_overlap_witness :
  fst (llm.factory_llm "repo" Scenario.oversized Scenario.empty) = Raised "ValueError"
  ∧ fst (LLM.factory_llm "repo" Scenario.oversized Scenario.empty) = Raised "ValueError"
  ∧ disk (snd (LLM.factory_llm "repo" Scenario.oversized Scenario.empty)) = ∅.
Proof.
  destruct (factory_raises_on_oversized_overlap "repo" Scenario.oversized Scenario.empty
              ltac:(reflexivity) repo_has_documents ltac:(reflexivity))
    as (-> & -> & _).
  repeat split.
Defined.

Lemma factory_reuses_persisted_index_witness :
  ∃ t w', LLM.factory_llm "repo" (Scenario.settings 2) (snd (Scenario.indexed_by_LLM 2))
          = (Returned 1, w')
          ∧ trace w' = trace (snd (Scenario.indexed_by_LLM 2)) ++ t
          ∧ count_events is_embed t = 0.
Proof.
  destruct (factory_reuses_persisted_index "repo" (Scenario.settings 2)
              (snd (Scenario.indexed_by_LLM 2)) _ (indexed_disk 2) _
              (or_intror eq_refl)) as (t & Hrun & _ & _ & Hembed & _).
  exists t. eexists. split; [exact Hrun | ]. split; [reflexivity | exact Hembed].
Defined.

Lemma force_recreate_rebuilds_witness :
  ∃ db w',
    llm._create_vector_store 0 Scenario.minilm "local" "repo" true
      (snd (Scenario.indexed_by_LLM 2)) = (Returned db, w')
    ∧ count_events is_embed
        (drop (length (trace (snd (Scenario.indexed_by_LLM 2)))) (trace w')) = 2.
Proof.
  eexists _, _. split.
  - apply (proj1 (force_recreate_rebuilds 0 Scenario.minilm "local" "repo"
                    (snd (Scenario.indexed_by_LLM 2)) (Scenario.settings 2)
                    (indexed_config 2) repo_has_documents)).
    + discriminate.
    + discriminate.
  - cbn [trace]. rewrite drop_app_length. reflexivity.
Defined.

Lemma force_recreate_without_documents_keeps_index_witness :
  load_files (normpath "elsewhere") = []
  ∧ disk Scenario.beside_abandoned !! index_path_of "elsewhere" "local"
    = Some [Scenario.c_old]
  ∧ fst (llm._create_vector_store 0 Scenario.minilm "local" "elsewhere" true
           Scenario.beside_abandoned) = Exited 0
  ∧ disk (snd (llm._create_vector_store 0 Scenario.minilm "local" "elsewhere" true
                 Scenario.beside_abandoned)) !! index_path_of "elsewhere" "local"
    = Some [Scenario.c_old].
Proof.
  split; [reflexivity | ]. split; [reflexivity | ].
  destruct (force_recreate_without_documents_keeps_index 0 Scenario.minilm "local"
              "elsewhere" Scenario.beside_abandoned elsewhere_has_none)
    as [Hrun Hdisk].
  split; [by rewrite Hrun | ]. rewrite Hdisk. reflexivity.
Defined.

Lemma cost_reported_for_openai_index_witness :
  ∃ t,
    trace (snd (llm._create_vector_store 0 (OpenAIEmbeddings "sk") "openai" "repo" false
                  (Scenario.serving OpenAILLM 2 [])))
    = trace (Scenario.serving OpenAILLM 2 []) ++ t
    ∧ Stderr ("Creating a vector store with estimated cost ~$" +:+ "0.00000") ∈ t.
Proof.
  destruct (cost_reported_for_openai_index 0 (OpenAIEmbeddings "sk") "openai" "repo" false
              (Scenario.serving OpenAILLM 2 []) (Scenario.settings 2)
              ltac:(reflexivity) ltac:(reflexivity) repo_has_documents
              _ _ (or_introl (conj eq_refl eq_refl)))
    as (t & Ht & Hbuilt & _).
  exists t. split; [exact Ht | ].
  apply Hbuilt; [discriminate | discriminate | reflexivity].
Defined.

Lemma abandoned_directory :
  "elsewhere/vector_store/local" ≠ index_path_of "repo" "local".
Proof. vm_compute. intros ?; discriminate. Qed.

Lemma create_and_update_write_index_path_only_witness :
  "repo/vector_store/openai" ≠ index_path_of "repo" "local"
  ∧ disk (snd (LLM._update_vector_store 0 ["repo/a.py"] Scenario.minilm "local" "repo"
                 (snd (Scenario.indexed_by_LLM 2)))) !! "repo/vector_store/openai"
    = disk (snd (Scenario.indexed_by_LLM 2)) !! "repo/vector_store/openai"
  ∧ disk (snd (llm._create_vector_store 0 Scenario.minilm "local" "repo" true
                 Scenario.beside_abandoned)) !! "elsewhere/vector_store/local"
    = Some [Scenario.c_old].
Proof.
  split; [exact other_directory | ]. split.
  - exact (proj2 (proj2
      (create_and_update_write_index_path_only 0 Scenario.minilm "local" "repo" false
         ["repo/a.py"] (snd (Scenario.indexed_by_LLM 2)) "repo/vector_store/openai"
         other_directory))).
  - rewrite (proj1
      (create_and_update_write_index_path_only 0 Scenario.minilm "local" "repo" true
         [] Scenario.beside_abandoned "elsewhere/vector_store/local"
         abandoned_directory)).
    reflexivity.
Defined.

Lemma question_after_build_searches_doubled_chunks_witness :
  ∃ t, LLM.send_query 0 "where is x set?" (snd (Scenario.indexed_by_LLM 3))
       = (Returned (),
          extend (snd (Scenario.indexed_by_LLM 3))
            (Search "where is x set?" 3
             :: Complete Scenario.local_model
                  (PromptText
                     (stuff_prompt [Scenario.a_old; Scenario.b_old; Scenario.a_old]
                        "where is x set?"))
             :: t)).
Proof.
  eexists.
  exact (question_after_build_searches_doubled_chunks "repo" (Scenario.settings 3)
           Scenario.empty 0 (snd (Scenario.indexed_by_LLM 3)) "where is x set?"
           ltac:(reflexivity) repo_has_documents (indexed_returns 3)).
Defined.

End Scenario_properties.
